(** * A shallow embedding of [etl.py] (data-lake-spark)

    The script reads a song catalog and an activity log from JSON files
    and is written to derive four dimension tables (songs, artists,
    users, time) and one fact table (songplays) with Spark SQL, and to
    write each with [to_parquet].

    What belongs to the script is transcribed from it: the column lists of
    the five queries, the [page == "NextSong"] filter, the eight
    [withColumn] lambdas, the place where [songplay_id] is put on the
    frame (before the join), the join condition, the order of the reads,
    the queries and the writes.  What belongs to the libraries it calls is
    modelled from their documented behaviour and kept in modules of their
    own ([PyDatetime], [Spark]).  The four dimension queries start
    [select distinct on (key)], which is not Spark SQL: [spark.sql]
    refuses them, and so they raise here.  What the libraries leave to
    the machine or to the scheduler (local time zone, packing of files
    into partitions, the order in which the rows of a join come out) is a
    field of the record [Env], and every theorem is stated for an
    arbitrary [Env]. *)

From Stdlib Require Import ZArith String Ascii QArith Bool Lia List.
From Stdlib Require Import Permutation Sorted.
Import ListNotations.

Local Open Scope string_scope.
Local Open Scope list_scope.
Local Open Scope Z_scope.

(* ================================================================== *)
(** * Exceptions *)
(* ================================================================== *)

(** An exception of the run.  [IOError]: a file that cannot be read;
    [AnalysisException]: a text that [spark.sql] refuses; [TypeError]:
    arithmetic on [None] inside a lambda; [ValueError]: a year outside
    [MINYEAR .. MAXYEAR]. *)
Inductive Error : Type :=
| IOError
| AnalysisException
| TypeError
| ValueError.

Inductive result (A : Type) : Type :=
| Ok (a : A)
| Raise (e : Error).
Arguments Ok {A} a.
Arguments Raise {A} e.

(* ================================================================== *)
(** * Python's [datetime] *)
(* ================================================================== *)

Module PyDatetime.

(** The proleptic Gregorian ordinal arithmetic of the [datetime] module
    (day 1 is 0001-01-01). *)

Definition MINYEAR : Z := 1.
Definition MAXYEAR : Z := 9999.

Definition _is_leap (year : Z) : bool :=
  (year mod 4 =? 0) && (negb (year mod 100 =? 0) || (year mod 400 =? 0)).

Definition _DAYS_IN_MONTH (month : Z) : Z :=
  match month with
  | 1 => 31 | 2 => 28 | 3 => 31 | 4 => 30 | 5 => 31 | 6 => 30
  | 7 => 31 | 8 => 31 | 9 => 30 | 10 => 31 | 11 => 30 | 12 => 31
  | _ => -1
  end.

Definition _DAYS_BEFORE_MONTH (month : Z) : Z :=
  match month with
  | 1 => 0 | 2 => 31 | 3 => 59 | 4 => 90 | 5 => 120 | 6 => 151
  | 7 => 181 | 8 => 212 | 9 => 243 | 10 => 273 | 11 => 304 | 12 => 334
  | _ => -1
  end.

Definition _days_before_year (year : Z) : Z :=
  let y := year - 1 in
  y * 365 + y / 4 - y / 100 + y / 400.

Definition _days_in_month (year month : Z) : Z :=
  if (month =? 2) && _is_leap year then 29 else _DAYS_IN_MONTH month.

Definition _days_before_month (year month : Z) : Z :=
  _DAYS_BEFORE_MONTH month + (if (2 <? month) && _is_leap year then 1 else 0).

Definition _ymd2ord (year month day : Z) : Z :=
  _days_before_year year + _days_before_month year month + day.

Definition _DI400Y : Z := 146097.
Definition _DI100Y : Z := 36524.
Definition _DI4Y : Z := 1461.

Definition _ord2ymd (n0 : Z) : Z * Z * Z :=
  let n := n0 - 1 in
  let n400 := n / _DI400Y in
  let n := n mod _DI400Y in
  let year := n400 * 400 + 1 in
  let n100 := n / _DI100Y in
  let n := n mod _DI100Y in
  let n4 := n / _DI4Y in
  let n := n mod _DI4Y in
  let n1 := n / 365 in
  let n := n mod 365 in
  let year := year + n100 * 100 + n4 * 4 + n1 in
  if (n1 =? 4) || (n100 =? 4) then (year - 1, 12, 31)
  else
    let leapyear := (n1 =? 3) && (negb (n4 =? 24) || (n100 =? 3)) in
    let month := Z.shiftr (n + 50) 5 in
    let preceding :=
      _DAYS_BEFORE_MONTH month + (if (2 <? month) && leapyear then 1 else 0) in
    if n <? preceding then
      let month := month - 1 in
      let preceding :=
        preceding
        - (_DAYS_IN_MONTH month + (if (month =? 2) && leapyear then 1 else 0)) in
      (year, month, n - preceding + 1)
    else (year, month, n - preceding + 1).

(** Ordinal of 1970-01-01, the day of epoch second 0. *)
Definition EPOCH_ORDINAL : Z := 719163.

(** A naive [datetime], microseconds left out: no column of the script
    reads them. *)
Record datetime : Type := mkdatetime {
  year : Z; month : Z; day : Z; hour : Z; minute : Z; second : Z
}.

Definition toordinal (d : datetime) : Z := _ymd2ord (year d) (month d) (day d).

(** [weekday()]: Monday is 0. *)
Definition weekday (d : datetime) : Z := (toordinal d + 6) mod 7.

(** [tm_yday - 1]: days since 1 January. *)
Definition yday0 (d : datetime) : Z := toordinal d - _ymd2ord (year d) 1 1.

(** The civil time of a count of seconds since 1970-01-01 00:00:00;
    [ValueError] when the year leaves [MINYEAR .. MAXYEAR]. *)
Definition of_seconds (s : Z) : result datetime :=
  let '(y, m, d) := _ord2ymd (s / 86400 + EPOCH_ORDINAL) in
  let r := s mod 86400 in
  if (MINYEAR <=? y) && (y <=? MAXYEAR)
  then Ok (mkdatetime y m d (r / 3600) (r mod 3600 / 60) (r mod 60))
  else Raise ValueError.

(** [datetime.fromtimestamp(x/1000.0)] for an integer [x] of
    milliseconds, in a zone [utcoffset] seconds east of UTC at each
    instant.  [x/1000.0] is a double, and [fromtimestamp] rounds it to
    the nearest microsecond; for every [x] whose date lies in
    [MINYEAR .. MAXYEAR] the whole seconds so obtained are
    [floor (x / 1000)], which is what is written here.  To set [fold],
    which no column reads, [fromtimestamp] also reads the clock 24 hours
    earlier and raises when that reading is before [MINYEAR]; this second
    reading is left out, so that on the first day of year 1 there is an
    [Ok] here where Python raises.  The theorems below that speak of the
    errors of the lambdas go from an [Ok] to the range, never back. *)
Definition fromtimestamp_ms (utcoffset : Z -> Z) (x : Z) : result datetime :=
  let t := x / 1000 in
  of_seconds (t + utcoffset t).

(** *** [strftime] *)

Definition digit (n : Z) : ascii :=
  ascii_of_nat (48 + Z.to_nat (n mod 10)).

Definition pad2 (n : Z) : string :=
  String (digit (n / 10)) (String (digit n) EmptyString).

Definition pad4 (n : Z) : string :=
  String (digit (n / 1000)) (String (digit (n / 100)) (pad2 n)).

(** ["%Y-%m-%d %H:%M:%S"].  The year is written with four digits; a
    C library that leaves the years below 1000 unpadded gives another
    text for them, and the same texts equal. *)
Definition strftime_Ymd_HMS (d : datetime) : string :=
  (pad4 (year d) ++ "-" ++ pad2 (month d) ++ "-" ++ pad2 (day d) ++ " "
   ++ pad2 (hour d) ++ ":" ++ pad2 (minute d) ++ ":" ++ pad2 (second d))%string.

(** ["%W"]: week of the year, Monday first; the days before the first
    Monday are in week 00. *)
Definition strftime_W (d : datetime) : string :=
  pad2 ((yday0 d + 7 - weekday d) / 7).

(** ["%A"] *)
Definition strftime_A (d : datetime) : string :=
  match weekday d with
  | 0 => "Monday" | 1 => "Tuesday" | 2 => "Wednesday" | 3 => "Thursday"
  | 4 => "Friday" | 5 => "Saturday" | _ => "Sunday"
  end.

End PyDatetime.

(* ================================================================== *)
(** * The machine and the scheduler *)
(* ================================================================== *)

(** What a run depends on besides its input files.
    - [utcoffset t]: seconds east of UTC of the machine's local zone at
      epoch second [t] ([datetime.fromtimestamp] is called without [tz]);
    - [pack]: how the reader lays the records of the files out in
      partitions (no record lost, none added);
    - [emit]: the order in which the engine gives out the rows of the
      result of a join (none lost, none added); the join query of the
      script has no [ORDER BY]. *)
Record Env : Type := mkEnv {
  utcoffset : Z -> Z;
  pack : forall A : Type, list (list A) -> list (list A);
  pack_perm : forall (A : Type) (fs : list (list A)),
      Permutation (concat (pack A fs)) (concat fs);
  emit : forall A : Type, list A -> list A;
  emit_perm : forall (A : Type) (l : list A), Permutation (emit A l) l
}.

(* ================================================================== *)
(** * Spark *)
(* ================================================================== *)

Module Spark.

(** A line of a JSON file: a record, or text that is not one. *)
Inductive Line (A : Type) : Type :=
| Parsed (r : A)
| Malformed.
Arguments Parsed {A} r.
Arguments Malformed {A}.

Inductive File (A : Type) : Type :=
| Readable (lines : list (Line A))
| Unreadable.
Arguments Readable {A} lines.
Arguments Unreadable {A}.

(** A frame: its partitions in order, each with its rows in order. *)
Definition DataFrame (A : Type) : Type := list (list A).

Definition collect {A : Type} (df : DataFrame A) : list A := concat df.

Section Reader.
Context {A : Type}.
(** The row all of whose columns are null. *)
Variable null : A.


(** Default mode [PERMISSIVE]: a malformed line is kept as a row of
    nulls. *)
Definition row_of (l : Line A) : A :=
  match l with Parsed r => r | Malformed => null end.

Fixpoint read_files (fs : list (File A)) : result (list (list (Line A))) :=
  match fs with
  | [] => Ok []
  | Unreadable :: _ => Raise IOError
  | Readable ls :: rest =>
      match read_files rest with
      | Ok lss => Ok (ls :: lss)
      | Raise e => Raise e
      end
  end.

(** [spark.read.json(paths)] with the session of
    [create_spark_session], which sets none of the [ignore...Files]
    options: a file that cannot be read fails the read.  The columns of
    the frame are the keys met in the records; the record types below
    list the columns the script names, and a frame of such records is one
    that has them. *)
Definition read_json (E : Env) (fs : list (File A)) : result (DataFrame A) :=
  match read_files fs with
  | Raise e => Raise e
  | Ok lss => Ok (pack E A (map (map row_of) lss))
  end.

End Reader.

(** [df[cond]] keeps the partitions and filters each. *)
Definition where_ {A : Type} (cond : A -> bool) (df : DataFrame A) : DataFrame A :=
  map (filter cond) df.

(** SQL [=] on nullable values: a comparison with NULL is not true. *)
Definition sql_eq {V : Type} (eqb : V -> V -> bool) (x y : option V) : bool :=
  match x, y with
  | Some a, Some b => eqb a b
  | _, _ => false
  end.

(** [spark.sql] on a text that starts [select distinct on (key) ...].
    The SELECT of Spark SQL takes the set quantifiers [ALL] and
    [DISTINCT] and no [DISTINCT ON]: the text is no query of the view,
    and [spark.sql], which analyses the text before it returns, raises.
    [key], [cols] and [view] are what the text names. *)
Definition select_distinct_on {A R : Type} (key : A -> option string)
           (cols : A -> R) (view : DataFrame A) : result (list R) :=
  Raise AnalysisException.

(** A Java [long]. *)
Definition wrap64 (z : Z) : Z := (z + 2 ^ 63) mod 2 ^ 64 - 2 ^ 63.

(** [monotonically_increasing_id()]: the partition index in the upper
    31 bits, the number of the record within its partition in the lower
    33 bits. *)
Definition row_id (p i : nat) : Z :=
  wrap64 (Z.shiftl (Z.of_nat p) 33 + Z.of_nat i).

Fixpoint number_rows {A : Type} (p i : nat) (rows : list A) : list (A * Z) :=
  match rows with
  | [] => []
  | r :: rest => (r, row_id p i) :: number_rows p (S i) rest
  end.

Fixpoint number_partitions {A : Type} (p : nat) (df : DataFrame A)
  : DataFrame (A * Z) :=
  match df with
  | [] => []
  | part :: rest => number_rows p 0 part :: number_partitions (S p) rest
  end.

(** [df.withColumn(name, monotonically_increasing_id())] *)
Definition with_monotonically_increasing_id {A : Type} (df : DataFrame A)
  : DataFrame (A * Z) :=
  number_partitions 0 df.

(** The frame is within what the generator is documented for: fewer
    than a billion partitions, fewer than eight billion records in
    each.  (Up to [2 ^ 30] partitions and [2 ^ 33] records no two sums
    above meet and none leaves the 64 bits.) *)
Definition fits {A : Type} (df : DataFrame A) : Prop :=
  Z.of_nat (List.length df) <= 2 ^ 30
  /\ Forall (fun part => Z.of_nat (List.length part) <= 2 ^ 33) df.

(** [df.withColumn(name, udf(f)(...))] for a lambda that may raise. *)
Fixpoint map_rows {A B : Type} (f : A -> result B) (rows : list A)
  : result (list B) :=
  match rows with
  | [] => Ok []
  | r :: rest =>
      match f r with
      | Raise e => Raise e
      | Ok b =>
          match map_rows f rest with
          | Raise e => Raise e
          | Ok bs => Ok (b :: bs)
          end
      end
  end.

Fixpoint with_columns {A B : Type} (f : A -> result B) (df : DataFrame A)
  : result (DataFrame B) :=
  match df with
  | [] => Ok []
  | part :: rest =>
      match map_rows f part with
      | Raise e => Raise e
      | Ok part' =>
          match with_columns f rest with
          | Raise e => Raise e
          | Ok rest' => Ok (part' :: rest')
          end
      end
  end.

(** The pairs of a row of [l] and a row of [r] that satisfy [cond],
    listed along [l], and for each of its rows along [r]. *)
Definition matching_pairs {A B C : Type} (cond : A -> B -> bool)
           (select : A -> B -> C) (l : list A) (r : list B) : list C :=
  flat_map (fun a => map (select a) (filter (cond a) r)) l.

(** [SELECT ... FROM l JOIN r ON cond]: the select list on every pair
    that satisfies the condition, in the order the engine gives them
    out. *)
Definition join {A B C : Type} (E : Env) (cond : A -> B -> bool)
           (select : A -> B -> C) (l : list A) (r : list B) : list C :=
  emit E C (matching_pairs cond select l r).

End Spark.

(* ================================================================== *)
(** * The records of the two inputs and the rows of the five tables *)
(* ================================================================== *)

(** A column of a frame read from JSON is nullable: [None] is NULL.  A
    double is modelled by the rational it denotes and compared with
    [Qeq_bool]. *)

(** A record of [song_data]. *)
Module Song.
Record t : Type := mk {
  song_id : option string;
  title : option string;
  artist_id : option string;
  artist_name : option string;
  artist_location : option string;
  artist_latitude : option Q;
  artist_longitude : option Q;
  year : option Z;
  duration : option Q
}.
Definition null : t := mk None None None None None None None None None.
End Song.

(** A record of [log_data]. *)
Module Event.
Record t : Type := mk {
  ts : option Z;
  page : option string;
  userId : option string;
  firstName : option string;
  lastName : option string;
  gender : option string;
  level : option string;
  song : option string;
  artist : option string;
  length : option Q;
  sessionId : option Z;
  location : option string;
  userAgent : option string
}.
Definition null : t :=
  mk None None None None None None None None None None None None None.
End Event.

(** A row of the log frame once the eight [withColumn] of the time
    columns are applied. *)
Module LogRow.
Record t : Type := mk {
  event : Event.t;
  timestamp : Z;
  start_time : string;
  hour : Z;
  day : Z;
  week : string;
  month : Z;
  year : Z;
  weekday : string
}.
End LogRow.

Module SongsRow.
Record t : Type := mk {
  song_id : option string;
  title : option string;
  artist_id : option string;
  year : option Z;
  duration : option Q
}.
End SongsRow.

Module ArtistsRow.
Record t : Type := mk {
  artist_id : option string;
  artist_name : option string;
  artist_location : option string;
  artist_latitude : option Q;
  artist_longitude : option Q
}.
End ArtistsRow.

Module UsersRow.
Record t : Type := mk {
  userId : option string;
  firstName : option string;
  lastName : option string;
  gender : option string;
  level : option string
}.
End UsersRow.

Module TimeRow.
Record t : Type := mk {
  start_time : string;
  hour : Z;
  day : Z;
  week : string;
  month : Z;
  year : Z;
  weekday : string
}.
End TimeRow.

Module SongplaysRow.
Record t : Type := mk {
  songplay_id : Z;
  start_time : string;
  user_id : option string;
  level : option string;
  song_id : option string;
  artist_id : option string;
  session_id : option Z;
  location : option string;
  user_agent : option string;
  year : Z;
  month : Z
}.
End SongplaysRow.

(* ================================================================== *)
(** * The sink and the monad of a run *)
(* ================================================================== *)

Inductive Table : Type :=
| songs_t (rows : list SongsRow.t)
| artists_t (rows : list ArtistsRow.t)
| users_t (rows : list UsersRow.t)
| time_t (rows : list TimeRow.t)
| songplays_t (rows : list SongplaysRow.t).

(** One call of [to_parquet]. *)
Record Write : Type := mkWrite {
  path : string;
  partition_cols : list string;
  data : Table
}.

(** The calls of [to_parquet] made so far, oldest first. *)
Definition Sink : Type := list Write.

(** A step of the script: it may write, and it returns or raises; what
    was written before an exception stays written. *)
Definition Run (A : Type) : Type := Sink -> result A * Sink.

Definition ret {A : Type} (a : A) : Run A := fun s => (Ok a, s).

Definition bind {A B : Type} (m : Run A) (k : A -> Run B) : Run B :=
  fun s =>
    match m s with
    | (Ok a, s') => k a s'
    | (Raise e, s') => (Raise e, s')
    end.

Definition lift {A : Type} (r : result A) : Run A := fun s => (r, s).

Definition to_parquet (p : string) (cols : list string) (t : Table) : Run unit :=
  fun s => (Ok tt, s ++ [mkWrite p cols t]).

Declare Scope run_scope.
Delimit Scope run_scope with run.
Notation "x <- m ;; k" := (bind m (fun x => k))
  (at level 61, m at next level, right associativity) : run_scope.
Notation "m ;; k" := (bind m (fun _ => k))
  (at level 61, right associativity) : run_scope.

(* ================================================================== *)
(** * [etl.py] *)
(* ================================================================== *)

(** What the two [glob.glob] calls return under [input_data]. *)
Record Input : Type := mkInput {
  song_data : list (Spark.File Song.t);
  log_data : list (Spark.File Event.t)
}.

(** ** [process_song_data] *)

(** [select distinct on (song_id) song_id, title, artist_id, year, duration] *)
Definition songs_columns (r : Song.t) : SongsRow.t :=
  SongsRow.mk (Song.song_id r) (Song.title r) (Song.artist_id r)
              (Song.year r) (Song.duration r).

(** [select distinct on (artist_id) artist_id, artist_name,
    artist_location, artist_latitude, artist_longitude] *)
Definition artists_columns (r : Song.t) : ArtistsRow.t :=
  ArtistsRow.mk (Song.artist_id r) (Song.artist_name r) (Song.artist_location r)
                (Song.artist_latitude r) (Song.artist_longitude r).

Definition process_song_data (E : Env) (input_data : Input) (output_data : string)
  : Run unit :=
  (df <- lift (Spark.read_json Song.null E (song_data input_data)) ;;
   songs_table <- lift (Spark.select_distinct_on Song.song_id songs_columns df) ;;
   to_parquet (output_data ++ "songs.parquet") ["year"; "artist_id"]
              (songs_t songs_table) ;;
   artists_table <-
     lift (Spark.select_distinct_on Song.artist_id artists_columns df) ;;
   to_parquet (output_data ++ "artists.parquet") [] (artists_t artists_table))%run.

(** ** [process_log_data] *)

(** [df["page"] == "NextSong"] *)
Definition is_NextSong (e : Event.t) : bool :=
  Spark.sql_eq String.eqb (Event.page e) (Some "NextSong").

(** [select distinct on (userId) userId, firstName, lastName, gender, level] *)
Definition users_columns (e : Event.t) : UsersRow.t :=
  UsersRow.mk (Event.userId e) (Event.firstName e) (Event.lastName e)
              (Event.gender e) (Event.level e).

(** A lambda of the script applied to the column [ts]: on NULL the
    arithmetic of its body raises. *)
Definition on_ts {B : Type} (body : Z -> result B) (x : option Z) : result B :=
  match x with
  | None => Raise TypeError
  | Some v => body v
  end.

Definition and_then {A B : Type} (r : result A) (f : A -> B) : result B :=
  match r with
  | Ok a => Ok (f a)
  | Raise e => Raise e
  end.

(** [lambda x: int(int(x)/1000.0)] *)
Definition get_timestamp : option Z -> result Z :=
  on_ts (fun x => Ok (Z.quot x 1000)).

(** [lambda x: datetime.fromtimestamp(x/1000.0).strftime("%Y-%m-%d %H:%M:%S")] *)
Definition get_datetime (E : Env) : option Z -> result string :=
  on_ts (fun x => and_then (PyDatetime.fromtimestamp_ms (utcoffset E) x)
                           PyDatetime.strftime_Ymd_HMS).

(** [lambda x: datetime.fromtimestamp(x/1000.0).hour] *)
Definition get_hour (E : Env) : option Z -> result Z :=
  on_ts (fun x => and_then (PyDatetime.fromtimestamp_ms (utcoffset E) x)
                           PyDatetime.hour).

(** [lambda x: datetime.fromtimestamp(x/1000.0).day] *)
Definition get_day (E : Env) : option Z -> result Z :=
  on_ts (fun x => and_then (PyDatetime.fromtimestamp_ms (utcoffset E) x)
                           PyDatetime.day).

(** [lambda x: datetime.fromtimestamp(x/1000.0).strftime('%W')] *)
Definition get_week (E : Env) : option Z -> result string :=
  on_ts (fun x => and_then (PyDatetime.fromtimestamp_ms (utcoffset E) x)
                           PyDatetime.strftime_W).

(** [lambda x: datetime.fromtimestamp(x/1000.0).month] *)
Definition get_month (E : Env) : option Z -> result Z :=
  on_ts (fun x => and_then (PyDatetime.fromtimestamp_ms (utcoffset E) x)
                           PyDatetime.month).

(** [lambda x: datetime.fromtimestamp(x/1000.0).year] *)
Definition get_year (E : Env) : option Z -> result Z :=
  on_ts (fun x => and_then (PyDatetime.fromtimestamp_ms (utcoffset E) x)
                           PyDatetime.year).

(** [lambda x: datetime.fromtimestamp(x/1000.0).strftime('%A')] *)
Definition get_weekday (E : Env) : option Z -> result string :=
  on_ts (fun x => and_then (PyDatetime.fromtimestamp_ms (utcoffset E) x)
                           PyDatetime.strftime_A).

Definition bind_result {A B : Type} (r : result A) (k : A -> result B) : result B :=
  match r with
  | Ok a => k a
  | Raise e => Raise e
  end.

Declare Scope result_scope.
Delimit Scope result_scope with result.
Notation "x <- m ;; k" := (bind_result m (fun x => k))
  (at level 61, m at next level, right associativity) : result_scope.

(** The eight [withColumn] from ['timestamp'] to ['weekday'], on one row. *)
Definition time_columns (E : Env) (e : Event.t) : result LogRow.t :=
  (timestamp <- get_timestamp (Event.ts e) ;;
   start_time <- get_datetime E (Event.ts e) ;;
   hour <- get_hour E (Event.ts e) ;;
   day <- get_day E (Event.ts e) ;;
   week <- get_week E (Event.ts e) ;;
   month <- get_month E (Event.ts e) ;;
   year <- get_year E (Event.ts e) ;;
   weekday <- get_weekday E (Event.ts e) ;;
   Ok (LogRow.mk e timestamp start_time hour day week month year weekday))%result.

(** [select distinct on (start_time) start_time, hour, day, week, month,
    year, weekday] *)
Definition time_table_columns (r : LogRow.t) : TimeRow.t :=
  TimeRow.mk (LogRow.start_time r) (LogRow.hour r) (LogRow.day r) (LogRow.week r)
             (LogRow.month r) (LogRow.year r) (LogRow.weekday r).

(** Lines 109 to 149: the frame of the plays with their time columns. *)
Definition plays_frame (E : Env) (log_df : Spark.DataFrame Event.t)
  : result (Spark.DataFrame LogRow.t) :=
  Spark.with_columns (time_columns E) (Spark.where_ is_NextSong log_df).

(** [on sp.artist=s.artist_name and sp.song=s.title and sp.length=s.duration] *)
Definition songplays_on (sp : LogRow.t * Z) (s : Song.t) : bool :=
  let e := LogRow.event (fst sp) in
  Spark.sql_eq String.eqb (Event.artist e) (Song.artist_name s)
  && Spark.sql_eq String.eqb (Event.song e) (Song.title s)
  && Spark.sql_eq Qeq_bool (Event.length e) (Song.duration s).

(** The select list of the songplays query; [snd sp] is the column
    [songplay_id]. *)
Definition songplays_columns (sp : LogRow.t * Z) (s : Song.t) : SongplaysRow.t :=
  let r := fst sp in
  let e := LogRow.event r in
  SongplaysRow.mk (snd sp) (LogRow.start_time r) (Event.userId e) (Event.level e)
                  (Song.song_id s) (Song.artist_id s) (Event.sessionId e)
                  (Event.location e) (Event.userAgent e)
                  (LogRow.year r) (LogRow.month r).

(** Lines 172 to 189: the frame gets its [songplay_id] column first; the
    join with the catalog as read, not deduplicated, comes after. *)
Definition songplays_table (E : Env) (song_df : Spark.DataFrame Song.t)
           (df : Spark.DataFrame LogRow.t) : list SongplaysRow.t :=
  let df := Spark.with_monotonically_increasing_id df in
  Spark.join E songplays_on songplays_columns
             (Spark.collect df) (Spark.collect song_df).

Definition process_log_data (E : Env) (input_data : Input) (output_data : string)
  : Run unit :=
  (df <- lift (Spark.read_json Event.null E (log_data input_data)) ;;
   let df := Spark.where_ is_NextSong df in
   users_table <- lift (Spark.select_distinct_on Event.userId users_columns df) ;;
   to_parquet (output_data ++ "users.parquet") [] (users_t users_table) ;;
   df <- lift (Spark.with_columns (time_columns E) df) ;;
   time_table <-
     lift (Spark.select_distinct_on (fun r => Some (LogRow.start_time r))
                                    time_table_columns df) ;;
   to_parquet (output_data ++ "time.parquet") ["year"; "month"]
              (time_t time_table) ;;
   song_df <- lift (Spark.read_json Song.null E (song_data input_data)) ;;
   to_parquet (output_data ++ "songplays.parquet") ["year"; "month"]
              (songplays_t (songplays_table E song_df df)))%run.

(** ** [main] *)

Definition main (E : Env) (input_data : Input) (output_data : string) : Run unit :=
  (process_song_data E input_data output_data ;;
   process_log_data E input_data output_data)%run.

(* ================================================================== *)
(** * The words of the properties *)
(* ================================================================== *)

(** The [(artist, song, length)] of an event is the
    [(artist_name, title, duration)] of a catalog record. *)
Definition triple_matches (e : Event.t) (s : Song.t) : bool :=
  Spark.sql_eq String.eqb (Event.artist e) (Song.artist_name s)
  && Spark.sql_eq String.eqb (Event.song e) (Song.title s)
  && Spark.sql_eq Qeq_bool (Event.length e) (Song.duration s).

(** The same, in words: the three columns of the event and of the record
    are there, artist and title are the same texts, and length and
    duration the same number. *)
Definition exact_match (e : Event.t) (c : Song.t) : Prop :=
  exists a t x y,
    Event.artist e = Some a /\ Song.artist_name c = Some a
    /\ Event.song e = Some t /\ Song.title c = Some t
    /\ Event.length e = Some x /\ Song.duration c = Some y /\ (x == y)%Q.

(** The number of rows of the catalog frame an event matches. *)
Definition match_count (song_df : Spark.DataFrame Song.t) (e : Event.t) : nat :=
  List.length (filter (triple_matches e) (Spark.collect song_df)).

(** [row] is the fact row of the play [e] joined to the catalog record
    [c] on machine [E]: its columns but [songplay_id]. *)
Definition joined (E : Env) (e : Event.t) (c : Song.t) (row : SongplaysRow.t)
  : Prop :=
  get_datetime E (Event.ts e) = Ok (SongplaysRow.start_time row)
  /\ SongplaysRow.user_id row = Event.userId e
  /\ SongplaysRow.level row = Event.level e
  /\ SongplaysRow.song_id row = Song.song_id c
  /\ SongplaysRow.artist_id row = Song.artist_id c
  /\ SongplaysRow.session_id row = Event.sessionId e
  /\ SongplaysRow.location row = Event.location e
  /\ SongplaysRow.user_agent row = Event.userAgent e
  /\ get_year E (Event.ts e) = Ok (SongplaysRow.year row)
  /\ get_month E (Event.ts e) = Ok (SongplaysRow.month row).


(** The second of the local clock at [ts] milliseconds, counted from
    1970-01-01 00:00:00 of that clock. *)
Definition local_second (E : Env) (ts : Z) : Z :=
  ts / 1000 + utcoffset E (ts / 1000).

(** The same count for the clock reading [year-month-day hour:00:00]. *)
Definition recombine (year month day hour : Z) : Z :=
  (PyDatetime._ymd2ord year month day - PyDatetime.EPOCH_ORDINAL) * 86400
  + hour * 3600.

(** A column of ids in which each element of [l] has its id [id p]
    [k p] times, one element after the other. *)
Definition ids_of {P : Type} (id : P -> Z) (k : P -> nat) (l : list P) : list Z :=
  flat_map (fun p => repeat (id p) (k p)) l.

(** [f] holds of the [2 ^ k] integers from [lo] on. *)
Fixpoint all_from (k : nat) (lo : Z) (f : Z -> bool) : bool :=
  match k with
  | O => f lo
  | S k' => all_from k' lo f && all_from k' (lo + 2 ^ Z.of_nat k') f
  end.

(** Day [r] of a 400-year cycle (0 is 1 January of its first year):
    the date found for it has that ordinal, a month in [1 .. 12] and a
    year in [1 .. 400]. *)
Definition cycle_day_ok (r : Z) : bool :=
  let '(y, m, d) := PyDatetime._ord2ymd (r + 1) in
  (PyDatetime._ymd2ord y m d =? r + 1) && (1 <=? m) && (m <=? 12)
  && (1 <=? y) && (y <=? 400) && (1 <=? d) && (d <=? 31).

(** Day [r] of a 400-year cycle: its year is before the last of the cycle
    exactly up to day 145730, the day is one of its month, and it is one
    of the 366 first days from 1 January of its year. *)
Definition cycle_year_ok (r : Z) : bool :=
  let '(y, m, d) := PyDatetime._ord2ymd (r + 1) in
  Bool.eqb (y <=? 399) (r <? 145731)
  && (d <=? PyDatetime._days_in_month y m)
  && (0 <=? r + 1 - PyDatetime._ymd2ord y 1 1)
  && (r + 1 - PyDatetime._ymd2ord y 1 1 <=? 365).

(** The second 0001-01-01 00:00:00 and the second after
    9999-12-31 23:59:59, counted from 1970-01-01 00:00:00. *)
Definition MIN_SECOND : Z := -62135596800.
Definition END_SECOND : Z := 253402300800.

(** The name of a day of the week, Monday being 0. *)
Definition day_name (i : Z) : string :=
  match i with
  | 0 => "Monday" | 1 => "Tuesday" | 2 => "Wednesday" | 3 => "Thursday"
  | 4 => "Friday" | 5 => "Saturday" | _ => "Sunday"
  end.



(* ================================================================== *)
(** * Three machines, and a few records, frames and inputs *)
(* ================================================================== *)

(** UTC machine, one partition per file, join rows given out as listed. *)
Definition utc_env : Env :=
  mkEnv (fun _ => 0)
        (fun _ fs => fs) (fun _ fs => Permutation_refl _)
        (fun _ l => l) (fun _ l => Permutation_refl _).


(** One hour east of UTC, join rows given out last first. *)
Definition cet_rev_env : Env :=
  mkEnv (fun _ => 3600)
        (fun _ fs => fs) (fun _ fs => Permutation_refl _)
        (fun _ l => rev l) (fun _ l => Permutation_sym (Permutation_rev l)).

Definition song_S1 : Song.t :=
  Song.mk (Some "S1") (Some "Foo") (Some "A1") (Some "Artist") None None None
          (Some 2000) (Some (421 # 2)).

(** A second catalog entry for the same recording. *)
Definition song_S2 : Song.t :=
  Song.mk (Some "S2") (Some "Foo") (Some "A1") (Some "Artist") None None None
          (Some 2001) (Some (421 # 2)).

(** Song S1 once more, under another title. *)
Definition song_S1' : Song.t :=
  Song.mk (Some "S1") (Some "Bar") (Some "A1") (Some "Artist") None None None
          (Some 2000) (Some (421 # 2)).

Definition play (t : Z) (user lvl : string) (len : Q) : Event.t :=
  Event.mk (Some t) (Some "NextSong") (Some user) None None None (Some lvl)
           (Some "Foo") (Some "Artist") (Some len) (Some 139) None None.

Definition event_10 : Event.t := play 1541121934796 "10" "free" (421 # 2).

(** A play one second later, and a play whose length is off by a half. *)
Definition event_11 : Event.t := play 1541121935796 "11" "paid" (421 # 2).

Definition event_short : Event.t := play 1541121934796 "10" "free" 210.

(** An event that is no play and has no [ts]. *)
Definition event_home : Event.t :=
  Event.mk None (Some "Home") (Some "12") None None None (Some "free")
           None None None (Some 141) None None.

(** The time columns of the three plays on a machine on UTC. *)
Definition row_10 : LogRow.t :=
  LogRow.mk event_10 1541121934 "2018-11-02 01:25:34" 1 2 "44" 11 2018 "Friday".

Definition row_11 : LogRow.t :=
  LogRow.mk event_11 1541121935 "2018-11-02 01:25:35" 1 2 "44" 11 2018 "Friday".

Definition row_short : LogRow.t :=
  LogRow.mk event_short 1541121934 "2018-11-02 01:25:34" 1 2 "44" 11 2018
            "Friday".

(** Frames of one partition. *)
Definition catalog_1 : Spark.DataFrame Song.t := [[song_S1]].
Definition catalog_2 : Spark.DataFrame Song.t := [[song_S1; song_S2]].
Definition log_2 : Spark.DataFrame Event.t := [[event_10; event_home; event_11]].
Definition plays_1 : Spark.DataFrame LogRow.t := [[row_10]].
Definition plays_2 : Spark.DataFrame LogRow.t := [[row_10; row_11]].
Definition plays_6 : Spark.DataFrame LogRow.t := [[row_short; row_10]].

Definition one_file {A : Type} (rs : list A) : Spark.File A :=
  Spark.Readable (map Spark.Parsed rs).

Definition input_1 : Input := mkInput [one_file [song_S1]] [one_file [event_10]].

(** Two records of song S1. *)
Definition input_4 : Input :=
  mkInput [one_file [song_S1; song_S1']] [one_file [event_10]].



(* ================================================================== *)
(** * Facts about the calendar *)
(* ================================================================== *)

Module PyDatetimeFacts.
Import PyDatetime.

Lemma all_from_spec (f : Z -> bool) (k : nat) :
  forall lo, all_from k lo f = true ->
  forall r, lo <= r < lo + 2 ^ Z.of_nat k -> f r = true.
Proof.
  induction k as [|k IH]; intros lo Hall r Hr.
  - simpl in *. replace r with lo by lia. exact Hall.
  - cbn [all_from] in Hall. apply andb_true_iff in Hall as [Hlow Hhigh].
    rewrite Nat2Z.inj_succ, Z.pow_succ_r in Hr by lia.
    destruct (Z_lt_ge_dec r (lo + 2 ^ Z.of_nat k)) as [Hlt|Hge].
    + apply (IH lo Hlow). lia.
    + apply (IH _ Hhigh). lia.
Qed.

Lemma cycle_checked :
  all_from 18 0 (fun r => (146097 <=? r) || cycle_day_ok r) = true.
Proof. vm_cast_no_check (eq_refl true). Qed.

Lemma cycle_day_ok_all (r : Z) : 0 <= r < 146097 -> cycle_day_ok r = true.
Proof.
  intros Hr.
  assert (H : (146097 <=? r) || cycle_day_ok r = true).
  { apply (all_from_spec _ 18 0 cycle_checked).
    change (2 ^ Z.of_nat 18) with 262144. lia. }
  apply orb_true_iff in H as [H|H]; [apply Z.leb_le in H; lia | exact H].
Qed.

(** The date of a day is that of the same day of the first cycle,
    400 years per cycle later. *)
Lemma _ord2ymd_cycle (n : Z) :
  _ord2ymd n =
  let '(y, m, d) := _ord2ymd ((n - 1) mod 146097 + 1) in
  (y + 400 * ((n - 1) / 146097), m, d).
Proof.
  unfold _ord2ymd, _DI400Y.
  replace ((n - 1) mod 146097 + 1 - 1) with ((n - 1) mod 146097) by lia.
  rewrite Z.mod_mod by lia.
  rewrite (Z.div_small ((n - 1) mod 146097) 146097)
    by (apply Z.mod_pos_bound; lia).
  set (r := (n - 1) mod 146097).
  set (q := (n - 1) / 146097).
  cbv zeta.
  destruct ((r mod _DI100Y mod _DI4Y / 365 =? 4) || (r / _DI100Y =? 4)).
  - f_equal. f_equal. lia.
  - match goal with
    | |- (if ?c then _ else _) = _ => destruct c
    end; f_equal; f_equal; lia.
Qed.

Lemma _is_leap_cycle (y q : Z) : _is_leap (y + 400 * q) = _is_leap y.
Proof.
  unfold _is_leap.
  replace (y + 400 * q) with (y + (100 * q) * 4) at 1 by lia.
  replace (y + 400 * q) with (y + (4 * q) * 100) at 1 by lia.
  replace (y + 400 * q) with (y + q * 400) by lia.
  now rewrite !Z.mod_add by lia.
Qed.

Lemma _ymd2ord_cycle (y m d q : Z) :
  _ymd2ord (y + 400 * q) m d = _ymd2ord y m d + 146097 * q.
Proof.
  unfold _ymd2ord, _days_before_month, _days_before_year.
  rewrite _is_leap_cycle. cbv zeta.
  replace (y + 400 * q - 1) with (y - 1 + (100 * q) * 4) at 2 by lia.
  replace (y + 400 * q - 1) with (y - 1 + (4 * q) * 100) at 2 by lia.
  replace (y + 400 * q - 1) with (y - 1 + q * 400) at 2 by lia.
  rewrite !Z.div_add by lia. lia.
Qed.

(** [_ymd2ord] undoes [_ord2ymd], on every day. *)
Lemma _ymd2ord_ord2ymd (n : Z) :
  let '(y, m, d) := _ord2ymd n in _ymd2ord y m d = n.
Proof.
  rewrite _ord2ymd_cycle.
  assert (Hr : 0 <= (n - 1) mod 146097 < 146097)
    by (apply Z.mod_pos_bound; lia).
  pose proof (cycle_day_ok_all _ Hr) as Hok.
  unfold cycle_day_ok in Hok.
  destruct (_ord2ymd ((n - 1) mod 146097 + 1)) as [[y m] d].
  rewrite !andb_true_iff in Hok.
  destruct Hok as [[[[[[Hord _] _] _] _] _] _].
  apply Z.eqb_eq in Hord.
  rewrite _ymd2ord_cycle, Hord.
  pose proof (Z.div_mod (n - 1) 146097). lia.
Qed.

End PyDatetimeFacts.

(* ================================================================== *)
(** * The range and the fields of a [datetime] *)
(* ================================================================== *)

Module RangeFacts.
Import PyDatetime PyDatetimeFacts.

Lemma cycle_year_checked :
  all_from 18 0 (fun r => (146097 <=? r) || cycle_year_ok r) = true.
Proof. vm_cast_no_check (eq_refl true). Qed.

Lemma cycle_year_ok_all (r : Z) : 0 <= r < 146097 -> cycle_year_ok r = true.
Proof.
  intros Hr.
  assert (H : (146097 <=? r) || cycle_year_ok r = true).
  { apply (all_from_spec _ 18 0 cycle_year_checked).
    change (2 ^ Z.of_nat 18) with 262144. lia. }
  apply orb_true_iff in H as [H|H]; [apply Z.leb_le in H; lia | exact H].
Qed.

Lemma _days_in_month_cycle (y m q : Z) :
  _days_in_month (y + 400 * q) m = _days_in_month y m.
Proof. unfold _days_in_month. now rewrite _is_leap_cycle. Qed.

(** The date of day [n]: it is a date of the calendar, it is a date of
    the years 1 to 9999 exactly for the days 1 to 3652059, and it is at
    most 365 days after 1 January of its year. *)
Lemma _ord2ymd_facts (n : Z) :
  let '(y, m, d) := _ord2ymd n in
  _ymd2ord y m d = n
  /\ 1 <= m <= 12 /\ 1 <= d <= _days_in_month y m /\ d <= 31
  /\ (1 <= y <= 9999 <-> 1 <= n <= 3652059)
  /\ 0 <= n - _ymd2ord y 1 1 <= 365.
Proof.
  pose proof (_ymd2ord_ord2ymd n) as Hord.
  rewrite _ord2ymd_cycle in *.
  assert (Hr : 0 <= (n - 1) mod 146097 < 146097)
    by (apply Z.mod_pos_bound; lia).
  pose proof (cycle_day_ok_all _ Hr) as Hok.
  pose proof (cycle_year_ok_all _ Hr) as Hyr.
  pose proof (Z.div_mod (n - 1) 146097) as Hn.
  unfold cycle_day_ok in Hok. unfold cycle_year_ok in Hyr.
  set (r := (n - 1) mod 146097) in *. set (q := (n - 1) / 146097) in *.
  destruct (_ord2ymd (r + 1)) as [[y m] d].
  rewrite !andb_true_iff in Hok. rewrite !andb_true_iff in Hyr.
  destruct Hok as [[[[[[_ Hm1] Hm2] Hy1] Hy2] Hd1] Hd2].
  destruct Hyr as [[[Hlast Hdim] Hj1] Hj2].
  apply Z.leb_le in Hm1, Hm2, Hy1, Hy2, Hd1, Hd2, Hdim, Hj1, Hj2.
  apply Bool.eqb_prop in Hlast.
  rewrite _days_in_month_cycle, !_ymd2ord_cycle.
  rewrite _ymd2ord_cycle in Hord.
  split; [exact Hord|]. split; [lia|]. split; [lia|]. split; [lia|].
  split; [|lia].
  destruct (r <? 145731) eqn:Hcut.
  - apply Z.leb_le in Hlast. apply Z.ltb_lt in Hcut. lia.
  - apply Z.leb_gt in Hlast. apply Z.ltb_ge in Hcut. lia.
Qed.

(** The fields of the [datetime] of second [s]. *)
Lemma of_seconds_Ok (s : Z) (d : datetime) :
  of_seconds s = Ok d ->
  toordinal d = s / 86400 + EPOCH_ORDINAL
  /\ MIN_SECOND <= s < END_SECOND
  /\ 1 <= year d <= 9999 /\ 1 <= month d <= 12
  /\ 1 <= day d <= _days_in_month (year d) (month d) /\ day d <= 31
  /\ hour d = s mod 86400 / 3600 /\ minute d = s mod 3600 / 60
  /\ second d = s mod 60
  /\ 0 <= yday0 d <= 365.
Proof.
  unfold of_seconds. intros H.
  pose proof (_ord2ymd_facts (s / 86400 + EPOCH_ORDINAL)) as Hf.
  destruct (_ord2ymd (s / 86400 + EPOCH_ORDINAL)) as [[y m] dd].
  destruct Hf as (Hord & Hm & Hd & Hd31 & Hy & Hj).
  destruct ((MINYEAR <=? y) && (y <=? MAXYEAR)) eqn:Hrange; [|discriminate].
  injection H as <-.
  apply andb_true_iff in Hrange as [Hy1 Hy2].
  apply Z.leb_le in Hy1, Hy2. unfold MINYEAR, MAXYEAR in *.
  unfold yday0, toordinal, MIN_SECOND, END_SECOND, EPOCH_ORDINAL in *.
  cbn [year month day hour minute second].
  pose proof (Z.div_mod s 86400). pose proof (Z.mod_pos_bound s 86400).
  assert (Hmin : (s mod 86400) mod 3600 = s mod 3600).
  { replace 86400 with (3600 * 24) by lia.
    rewrite Z.rem_mul_r by lia.
    rewrite Z.mul_comm, Z.mod_add by lia. apply Z.mod_mod. lia. }
  assert (Hsec : (s mod 86400) mod 60 = s mod 60).
  { replace 86400 with (60 * 1440) by lia.
    rewrite Z.rem_mul_r by lia.
    rewrite Z.mul_comm, Z.mod_add by lia. apply Z.mod_mod. lia. }
  rewrite Hmin, Hsec.
  repeat split; try reflexivity; try lia.
Qed.

(** The fields of a [datetime] put together again give its second. *)
Lemma of_seconds_round_trip (s : Z) (d : datetime) :
  of_seconds s = Ok d ->
  (toordinal d - EPOCH_ORDINAL) * 86400
  + hour d * 3600 + minute d * 60 + second d = s.
Proof.
  intros H. apply of_seconds_Ok in H
    as (Hord & _ & _ & _ & _ & _ & Hh & Hm & Hs & _).
  rewrite Hord, Hh, Hm, Hs.
  pose proof (Z.div_mod s 86400). pose proof (Z.mod_pos_bound s 86400).
  pose proof (Z.div_mod (s mod 86400) 3600).
  pose proof (Z.mod_pos_bound (s mod 86400) 3600).
  assert (Hmin : (s mod 86400) mod 3600 = s mod 3600).
  { replace 86400 with (3600 * 24) by lia.
    rewrite Z.rem_mul_r by lia.
    rewrite Z.mul_comm, Z.mod_add by lia. apply Z.mod_mod. lia. }
  pose proof (Z.div_mod (s mod 3600) 60). pose proof (Z.mod_pos_bound (s mod 3600) 60).
  assert (Hsec : (s mod 3600) mod 60 = s mod 60).
  { replace 3600 with (60 * 60) by lia.
    rewrite Z.rem_mul_r by lia.
    rewrite Z.mul_comm, Z.mod_add by lia. apply Z.mod_mod. lia. }
  lia.
Qed.

End RangeFacts.

(* ================================================================== *)
(** * Facts about the Spark operations *)
(* ================================================================== *)

Module SparkFacts.
Import Spark.

(** ** Reading *)

Section ReaderFacts.
Context {A : Type}.
Variable null : A.

Lemma read_files_Unreadable (fs : list (File A)) :
  In Unreadable fs -> read_files fs = Raise IOError.
Proof.
  induction fs as [|f fs IH]; intros Hin; [destruct Hin|].
  destruct f as [ls|]; simpl; [|reflexivity].
  destruct Hin as [Heq|Hin]; [discriminate|].
  now rewrite (IH Hin).
Qed.


Lemma read_json_Unreadable (E : Env) (fs : list (File A)) :
  In Unreadable fs -> read_json null E fs = Raise IOError.
Proof.
  intros Hin. unfold read_json. now rewrite (read_files_Unreadable fs Hin).
Qed.


(** When every file can be read the read gives a frame. *)
Lemma read_json_readable (E : Env) (fs : list (File A)) :
  ~ In Unreadable fs -> exists df, read_json null E fs = Ok df.
Proof.
  unfold read_json. intros Hno.
  assert (H : exists lss, read_files fs = Ok lss).
  { induction fs as [|f fs IH]; simpl; [now exists []|].
    destruct f as [ls|]; [|exfalso; apply Hno; now left].
    destruct IH as [lss ->]; [intro Hin; apply Hno; now right|].
    now exists (ls :: lss). }
  destruct H as [lss ->]. eexists. reflexivity.
Qed.

(** A read fails in one way only. *)
Lemma read_json_error (E : Env) (fs : list (File A)) (err : Error) :
  read_json null E fs = Raise err -> err = IOError.
Proof.
  unfold read_json.
  assert (H : forall e, read_files fs = Raise e -> e = IOError).
  { induction fs as [|f fs IH]; simpl; [discriminate|].
    destruct f as [ls|]; [|now intros e [= <-]].
    destruct (read_files fs) as [lss|e']; [discriminate|].
    intros e [= <-]. now apply IH. }
  destruct (read_files fs) as [lss|e]; [discriminate|].
  intros [= <-]. now apply H.
Qed.

End ReaderFacts.

Lemma collect_where_ {A : Type} (cond : A -> bool) (df : DataFrame A) :
  collect (where_ cond df) = filter cond (collect df).
Proof.
  unfold collect, where_.
  induction df as [|p df IH]; simpl; [reflexivity|].
  now rewrite filter_app, IH.
Qed.

(** ** Columns computed by a lambda *)

Section WithColumns.
Context {A B : Type}.
Variables (f : A -> result B) (g : B -> A).
Hypothesis f_keeps : forall a b, f a = Ok b -> g b = a.

Lemma map_rows_keeps (l : list A) :
  forall l', map_rows f l = Ok l' -> map g l' = l.
Proof.
  induction l as [|a l IH]; intros l' H; simpl in H.
  - injection H as <-. reflexivity.
  - destruct (f a) as [b|e] eqn:Hfa; [|discriminate].
    destruct (map_rows f l) as [bs|e]; [|discriminate].
    injection H as <-. simpl. now rewrite (f_keeps a b Hfa), (IH bs eq_refl).
Qed.

Lemma with_columns_keeps (df : DataFrame A) :
  forall df', with_columns f df = Ok df' -> map (map g) df' = df.
Proof.
  induction df as [|p df IH]; intros df' H; simpl in H.
  - injection H as <-. reflexivity.
  - destruct (map_rows f p) as [p'|e] eqn:Hp; [|discriminate].
    destruct (with_columns f df) as [rest|e]; [|discriminate].
    injection H as <-. simpl.
    now rewrite (map_rows_keeps p p' Hp), (IH rest eq_refl).
Qed.

Lemma map_rows_each (l : list A) :
  forall l' b, map_rows f l = Ok l' -> In b l' -> f (g b) = Ok b.
Proof.
  induction l as [|a l IH]; intros l' b H Hin; simpl in H.
  - injection H as <-. destruct Hin.
  - destruct (f a) as [b0|e] eqn:Hfa; [|discriminate].
    destruct (map_rows f l) as [bs|e]; [|discriminate].
    injection H as <-. destruct Hin as [<-|Hin].
    + now rewrite (f_keeps a b0 Hfa).
    + now apply (IH bs).
Qed.

Lemma with_columns_each (df : DataFrame A) :
  forall df' b, with_columns f df = Ok df' -> In b (collect df') ->
    f (g b) = Ok b.
Proof.
  induction df as [|p df IH]; intros df' b H Hin; simpl in H.
  - injection H as <-. destruct Hin.
  - destruct (map_rows f p) as [p'|e] eqn:Hp; [|discriminate].
    destruct (with_columns f df) as [rest|e]; [|discriminate].
    injection H as <-. unfold collect in Hin. simpl in Hin.
    apply in_app_or in Hin as [Hin|Hin].
    + now apply (map_rows_each p p').
    + now apply (IH rest).
Qed.
End WithColumns.

Lemma filter_nonempty {A : Type} (f : A -> bool) (l : list A) :
  (0 < List.length (filter f l))%nat <-> exists x, In x l /\ f x = true.
Proof.
  split.
  - destruct (filter f l) as [|x xs] eqn:Hf; simpl; [lia|]. intros _.
    assert (Hin : In x (filter f l)) by (rewrite Hf; now left).
    apply filter_In in Hin. now exists x.
  - intros (x & Hin & Hfx).
    assert (Hx : In x (filter f l)) by (apply filter_In; now split).
    destruct (filter f l); [destruct Hx | simpl; lia].
Qed.

End SparkFacts.

(* ================================================================== *)
(** * Facts about the generated ids *)
(* ================================================================== *)

Module IdFacts.
Import Spark.

Lemma number_rows_fst {A : Type} (rows : list A) :
  forall p i, map fst (number_rows p i rows) = rows.
Proof.
  induction rows as [|r rows IH]; intros p i; simpl; [reflexivity|].
  now rewrite IH.
Qed.

Lemma number_partitions_fst {A : Type} (df : DataFrame A) :
  forall p, map (map fst) (number_partitions p df) = df.
Proof.
  induction df as [|part df IH]; intros p; simpl; [reflexivity|].
  now rewrite number_rows_fst, IH.
Qed.

Lemma collect_map {A B : Type} (f : A -> B) (df : DataFrame A) :
  collect (map (map f) df) = map f (collect df).
Proof. unfold collect. now rewrite concat_map. Qed.

(** Within the documented capacity the sum neither overflows nor
    wraps. *)
Lemma row_id_exact (p i : nat) :
  Z.of_nat p < 2 ^ 30 -> Z.of_nat i < 2 ^ 33 ->
  row_id p i = Z.of_nat p * 2 ^ 33 + Z.of_nat i.
Proof.
  intros Hp Hi. unfold row_id, wrap64.
  rewrite Z.shiftl_mul_pow2 by lia.
  change (2 ^ 30) with 1073741824 in Hp.
  change (2 ^ 33) with 8589934592 in *.
  change (2 ^ 63) with 9223372036854775808.
  change (2 ^ 64) with 18446744073709551616.
  rewrite Z.mod_small by lia. lia.
Qed.

Lemma StronglySorted_append {A : Type} (R : A -> A -> Prop) (l1 l2 : list A) :
  StronglySorted R l1 -> StronglySorted R l2 ->
  (forall x y, In x l1 -> In y l2 -> R x y) ->
  StronglySorted R (l1 ++ l2).
Proof.
  induction l1 as [|a l1 IH]; intros H1 H2 H12; simpl; [exact H2|].
  inversion H1 as [|? ? Hs Hall]; subst.
  constructor.
  - apply IH; [exact Hs | exact H2 |].
    intros x y Hx Hy. apply H12; [now right | exact Hy].
  - apply Forall_app. split; [exact Hall|].
    apply Forall_forall. intros y Hy. apply H12; [now left | exact Hy].
Qed.

Lemma StronglySorted_lt_NoDup (l : list Z) :
  StronglySorted Z.lt l -> NoDup l.
Proof.
  induction 1 as [|a l _ IH Hall]; constructor; [|exact IH].
  intro Hin. rewrite Forall_forall in Hall. specialize (Hall a Hin). lia.
Qed.

Lemma number_rows_sorted {A : Type} (p : nat) (rows : list A) :
  Z.of_nat p < 2 ^ 30 ->
  forall i, Z.of_nat (i + List.length rows) <= 2 ^ 33 ->
    StronglySorted Z.lt (map snd (number_rows p i rows))
    /\ Forall (fun x => Z.of_nat p * 2 ^ 33 + Z.of_nat i <= x
                        < (Z.of_nat p + 1) * 2 ^ 33)
              (map snd (number_rows p i rows)).
Proof.
  intros Hp. induction rows as [|r rows IH]; intros i Hi; simpl.
  - split; constructor.
  - simpl in Hi.
    destruct (IH (S i)) as [Hs Hb]; [lia|].
    rewrite row_id_exact by lia.
    split; constructor.
    + exact Hs.
    + eapply Forall_impl; [|exact Hb]. simpl. intros x Hx. lia.
    + lia.
    + eapply Forall_impl; [|exact Hb]. simpl. intros x Hx. lia.
Qed.

Lemma number_partitions_sorted {A : Type} (df : DataFrame A) :
  Forall (fun part => Z.of_nat (List.length part) <= 2 ^ 33) df ->
  forall p, Z.of_nat (p + List.length df) <= 2 ^ 30 ->
    StronglySorted Z.lt (map snd (collect (number_partitions p df)))
    /\ Forall (fun x => Z.of_nat p * 2 ^ 33 <= x)
              (map snd (collect (number_partitions p df))).
Proof.
  unfold collect.
  induction df as [|part df IH]; intros Hparts p Hp; simpl.
  - split; constructor.
  - inversion Hparts as [|? ? Hpart Hrest]; subst. simpl in Hp.
    destruct (IH Hrest (S p)) as [Hs Hb]; [lia|].
    destruct (number_rows_sorted p part) with (i := O) as [Hs0 Hb0];
      [lia | simpl; lia |].
    rewrite map_app. split.
    + apply StronglySorted_append; [exact Hs0 | exact Hs |].
      intros x y Hx Hy.
      rewrite Forall_forall in Hb0, Hb.
      specialize (Hb0 x Hx). specialize (Hb y Hy). simpl in Hb0. lia.
    + apply Forall_app. split.
      * eapply Forall_impl; [|exact Hb0]. simpl. intros x Hx. lia.
      * eapply Forall_impl; [|exact Hb]. simpl. intros x Hx. lia.
Qed.

(** Within the capacity the ids grow along the frame. *)
Lemma ids_increase {A : Type} (df : DataFrame A) :
  fits df ->
  StronglySorted Z.lt (map snd (collect (with_monotonically_increasing_id df))).
Proof.
  intros [Hn Hparts].
  apply (number_partitions_sorted df Hparts O). simpl. exact Hn.
Qed.

(** ** A table of ids in which each play has its id as often as it has
    matches *)

Section Census.
Context {P : Type}.
Variables (id : P -> Z) (k : P -> nat).

Lemma ids_of_from (l : list P) (x : Z) :
  In x (ids_of id k l) -> exists p, In p l /\ id p = x /\ (0 < k p)%nat.
Proof.
  unfold ids_of. rewrite in_flat_map. intros (p & Hp & Hx).
  exists p. split; [exact Hp|].
  pose proof (repeat_spec _ _ _ Hx). split; [congruence|].
  destruct (k p); [destruct Hx | lia].
Qed.

Lemma ids_of_length (l : list P) :
  List.length (ids_of id k l) = list_sum (map k l).
Proof.
  unfold ids_of. induction l as [|p l IH]; simpl; [reflexivity|].
  now rewrite length_app, repeat_length, IH.
Qed.

Lemma repeat_sorted_le (x : Z) (n : nat) : StronglySorted Z.le (repeat x n).
Proof.
  induction n as [|n IH]; simpl; constructor; [exact IH|].
  apply Forall_forall. intros y Hy. apply repeat_spec in Hy. lia.
Qed.

Lemma ids_of_sorted_le (l : list P) :
  StronglySorted Z.lt (map id l) -> StronglySorted Z.le (ids_of id k l).
Proof.
  induction l as [|p l IH]; intros Hs; simpl; [constructor|].
  inversion Hs as [|? ? Hs' Hall]; subst.
  apply StronglySorted_append; [apply repeat_sorted_le | now apply IH |].
  intros x y Hx Hy. apply repeat_spec in Hx. subst x.
  apply ids_of_from in Hy as (p' & Hp' & <- & _).
  rewrite Forall_forall in Hall.
  specialize (Hall (id p') (in_map id _ _ Hp')). lia.
Qed.

Lemma ids_of_sorted_lt (l : list P) :
  StronglySorted Z.lt (map id l) ->
  (forall p, In p l -> (k p <= 1)%nat) ->
  StronglySorted Z.lt (ids_of id k l).
Proof.
  induction l as [|p l IH]; intros Hs Hk; simpl; [constructor|].
  inversion Hs as [|? ? Hs' Hall]; subst.
  apply StronglySorted_append.
  - assert (Hp : (k p <= 1)%nat) by (apply Hk; now left).
    destruct (k p) as [|[|n]]; simpl; [constructor | | lia].
    constructor; constructor.
  - apply IH; [exact Hs'|]. intros p' Hp'. apply Hk. now right.
  - intros x y Hx Hy. apply repeat_spec in Hx. subst x.
    apply ids_of_from in Hy as (p' & Hp' & <- & _).
    rewrite Forall_forall in Hall.
    exact (Hall (id p') (in_map id _ _ Hp')).
Qed.

Lemma count_occ_repeat (x y : Z) (n : nat) :
  count_occ Z.eq_dec (repeat x n) y = if Z.eq_dec x y then n else O.
Proof.
  induction n as [|n IH]; simpl.
  - now destruct (Z.eq_dec x y).
  - rewrite IH. now destruct (Z.eq_dec x y).
Qed.

Lemma ids_of_absent (l : list P) (x : Z) :
  ~ In x (map id l) -> count_occ Z.eq_dec (ids_of id k l) x = O.
Proof.
  intros Hx. apply count_occ_not_In. intros Hin.
  apply ids_of_from in Hin as (p & Hp & <- & _).
  apply Hx. now apply in_map.
Qed.

(** Each play has its id in the table as often as it has matches. *)
Lemma ids_of_count (l : list P) :
  NoDup (map id l) ->
  forall p, In p l -> count_occ Z.eq_dec (ids_of id k l) (id p) = k p.
Proof.
  induction l as [|a l IH]; intros Hnd p Hp; [destruct Hp|].
  simpl in Hnd. inversion Hnd as [|? ? Hnot Hnd']; subst.
  simpl. rewrite count_occ_app, count_occ_repeat.
  destruct Hp as [->|Hp].
  - destruct (Z.eq_dec (id p) (id p)) as [_|Hne]; [|congruence].
    rewrite ids_of_absent by exact Hnot. lia.
  - destruct (Z.eq_dec (id a) (id p)) as [Heq|_].
    + exfalso. apply Hnot. rewrite Heq. now apply in_map.
    + now rewrite (IH Hnd' p Hp).
Qed.

Lemma ids_of_NoDup (l : list P) :
  NoDup (ids_of id k l) -> forall p, In p l -> (k p <= 1)%nat.
Proof.
  induction l as [|a l IH]; intros Hnd p Hp; [destruct Hp|].
  simpl in Hnd. destruct Hp as [->|Hp].
  - apply NoDup_app_remove_r in Hnd.
    destruct (k p) as [|[|n]]; [lia | lia |].
    simpl in Hnd. inversion Hnd as [|? ? Hnot _]; subst.
    exfalso. apply Hnot. now left.
  - apply IH; [|exact Hp]. now apply NoDup_app_remove_l in Hnd.
Qed.

(** When no play has two matches, the rows are as many as the plays
    exactly when every play has one. *)
Lemma list_sum_le_length (l : list P) :
  (forall p, In p l -> (k p <= 1)%nat) ->
  (list_sum (map k l) <= List.length l)%nat
  /\ (list_sum (map k l) = List.length l
      <-> forall p, In p l -> (0 < k p)%nat).
Proof.
  induction l as [|a l IH]; intros Hk; simpl.
  - split; [lia|]. split; [intros _ p []|reflexivity].
  - assert (Ha : (k a <= 1)%nat) by (apply Hk; now left).
    destruct IH as [Hle Hiff]; [intros p Hp; apply Hk; now right|].
    split; [lia|]. split.
    + intros Hsum p [<-|Hp]; [lia|]. apply Hiff; [lia | exact Hp].
    + intros Hall.
      assert (0 < k a)%nat by (apply Hall; now left).
      assert (list_sum (map k l) = List.length l)
        by (apply Hiff; intros p Hp; apply Hall; now right).
      lia.
Qed.
End Census.

End IdFacts.
(* ================================================================== *)
(** * The time columns *)
(* ================================================================== *)

Module TimeFacts.
Import PyDatetime.

(** The columns of a row are the fields of one [datetime], that of the
    local second of [ts]. *)
Lemma time_columns_fields (E : Env) (e : Event.t) (r : LogRow.t) (t : Z) :
  time_columns E e = Ok r -> Event.ts e = Some t ->
  exists d,
    of_seconds (local_second E t) = Ok d
    /\ LogRow.start_time r = strftime_Ymd_HMS d
    /\ LogRow.hour r = hour d /\ LogRow.day r = day d
    /\ LogRow.week r = strftime_W d /\ LogRow.month r = month d
    /\ LogRow.year r = year d /\ LogRow.weekday r = strftime_A d.
Proof.
  unfold time_columns, get_timestamp, get_datetime, get_hour, get_day,
    get_week, get_month, get_year, get_weekday, on_ts, and_then,
    bind_result, fromtimestamp_ms, local_second.
  intros H Hts. rewrite Hts in H.
  destruct (of_seconds (t / 1000 + utcoffset E (t / 1000))) as [d|err];
    [|discriminate].
  injection H as <-. exists d. simpl. repeat split.
Qed.

Lemma time_columns_start_time (E : Env) (e : Event.t) (r : LogRow.t) :
  time_columns E e = Ok r ->
  get_datetime E (Event.ts e) = Ok (LogRow.start_time r).
Proof.
  unfold time_columns, bind_result. intros H.
  destruct (get_timestamp (Event.ts e)); [|discriminate].
  destruct (get_datetime E (Event.ts e)) as [st|err]; [|discriminate].
  repeat match type of H with
         | match ?x with Ok _ => _ | Raise _ => _ end = _ =>
             destruct x; [|discriminate]
         end.
  now injection H as <-.
Qed.

(** Hours and days of a count of seconds add up to its whole hours. *)
Lemma whole_hours (s : Z) :
  s / 86400 * 86400 + s mod 86400 / 3600 * 3600 = 3600 * (s / 3600).
Proof.
  pose proof (Z.div_mod s 86400).
  pose proof (Z.mod_pos_bound s 86400).
  pose proof (Z.div_mod (s mod 86400) 3600).
  pose proof (Z.mod_pos_bound (s mod 86400) 3600).
  pose proof (Z.div_mod s 3600).
  pose proof (Z.mod_pos_bound s 3600).
  assert (Hq : s / 3600 = 24 * (s / 86400) + s mod 86400 / 3600).
  { symmetry. apply (Z.div_unique s 3600 _ (s mod 86400 mod 3600)); lia. }
  lia.
Qed.

Lemma of_seconds_recombine (s : Z) (d : datetime) :
  of_seconds s = Ok d ->
  recombine (year d) (month d) (day d) (hour d) = 3600 * (s / 3600).
Proof.
  unfold of_seconds. intros H.
  pose proof (PyDatetimeFacts._ymd2ord_ord2ymd (s / 86400 + EPOCH_ORDINAL))
    as Hord.
  destruct (_ord2ymd (s / 86400 + EPOCH_ORDINAL)) as [[y m] dd].
  destruct ((MINYEAR <=? y) && (y <=? MAXYEAR)); [|discriminate].
  injection H as <-. unfold recombine.
  cbn [year month day hour]. rewrite Hord.
  pose proof (whole_hours s). lia.
Qed.

End TimeFacts.

(* ================================================================== *)
(** * The errors of the time lambdas *)
(* ================================================================== *)

Module LambdaFacts.

Lemma time_columns_event (E : Env) (e : Event.t) (r : LogRow.t) :
  time_columns E e = Ok r -> LogRow.event r = e.
Proof.
  unfold time_columns, bind_result. intros H.
  repeat match type of H with
         | match ?x with Ok _ => _ | Raise _ => _ end = _ =>
             destruct x; [|discriminate]
         end.
  now injection H as <-.
Qed.

(** The time columns of an event, by cases on its [ts]. *)
Lemma time_columns_None (E : Env) (e : Event.t) :
  Event.ts e = None -> time_columns E e = Raise TypeError.
Proof.
  intros H. unfold time_columns, get_timestamp, on_ts, bind_result.
  now rewrite H.
Qed.

Lemma time_columns_Some (E : Env) (e : Event.t) (t : Z) :
  Event.ts e = Some t ->
  (exists r, time_columns E e = Ok r) \/ time_columns E e = Raise ValueError.
Proof.
  intros Hts.
  unfold time_columns, get_timestamp, get_datetime, get_hour, get_day,
    get_week, get_month, get_year, get_weekday, on_ts, and_then,
    bind_result, PyDatetime.fromtimestamp_ms.
  rewrite Hts.
  destruct (PyDatetime.of_seconds (t / 1000 + utcoffset E (t / 1000)))
    as [d|err] eqn:Hd.
  - left. eexists. reflexivity.
  - right. unfold PyDatetime.of_seconds in Hd.
    destruct (PyDatetime._ord2ymd _) as [[y m] d'].
    destruct (_ && _); [discriminate Hd | now injection Hd as <-].
Qed.

End LambdaFacts.

(* ================================================================== *)
(** * The text of [start_time] and the other time columns *)
(* ================================================================== *)

Module FormatFacts.
Import PyDatetime.

Lemma digit_inj (a b : Z) : digit a = digit b -> a mod 10 = b mod 10.
Proof.
  unfold digit. intros H.
  pose proof (Z.mod_pos_bound a 10). pose proof (Z.mod_pos_bound b 10).
  apply (f_equal nat_of_ascii) in H.
  rewrite !nat_ascii_embedding in H by lia. lia.
Qed.

Lemma two_digits (a b : Z) :
  0 <= a < 100 -> 0 <= b < 100 ->
  (a / 10) mod 10 = (b / 10) mod 10 -> a mod 10 = b mod 10 -> a = b.
Proof. intros. Z.to_euclidean_division_equations. lia. Qed.

Lemma four_digits (a b : Z) :
  0 <= a < 10000 -> 0 <= b < 10000 ->
  (a / 1000) mod 10 = (b / 1000) mod 10 ->
  (a / 100) mod 10 = (b / 100) mod 10 ->
  (a / 10) mod 10 = (b / 10) mod 10 -> a mod 10 = b mod 10 -> a = b.
Proof. intros. Z.to_euclidean_division_equations. lia. Qed.

(** The text ["%Y-%m-%d %H:%M:%S"] of a [datetime] tells its six
    fields. *)
Lemma strftime_Ymd_HMS_inj (d1 d2 : datetime) :
  0 <= year d1 < 10000 -> 0 <= year d2 < 10000 ->
  0 <= month d1 < 100 -> 0 <= month d2 < 100 ->
  0 <= day d1 < 100 -> 0 <= day d2 < 100 ->
  0 <= hour d1 < 100 -> 0 <= hour d2 < 100 ->
  0 <= minute d1 < 100 -> 0 <= minute d2 < 100 ->
  0 <= second d1 < 100 -> 0 <= second d2 < 100 ->
  strftime_Ymd_HMS d1 = strftime_Ymd_HMS d2 -> d1 = d2.
Proof.
  intros Hy1 Hy2 Hm1 Hm2 Hd1 Hd2 Hh1 Hh2 Hi1 Hi2 Hs1 Hs2 H.
  unfold strftime_Ymd_HMS, pad4, pad2 in H. cbn [append] in H.
  injection H as Y3 Y2 Y1 Y0 M1 M0 D1 D0 H1 H0 I1 I0 S1 S0.
  apply digit_inj in Y3, Y2, Y1, Y0, M1, M0, D1, D0, H1, H0, I1, I0, S1, S0.
  destruct d1 as [y1 m1 dd1 h1 i1 s1], d2 as [y2 m2 dd2 h2 i2 s2].
  cbn [year month day hour minute second] in *.
  f_equal; first [now apply four_digits | now apply two_digits].
Qed.

End FormatFacts.

Module TimeTableFacts.
Import PyDatetime.

(** The local second of an event whose time columns are computed, and
    its [datetime]. *)
Lemma time_columns_datetime (E : Env) (e : Event.t) (r : LogRow.t) :
  time_columns E e = Ok r ->
  exists t d,
    Event.ts e = Some t
    /\ of_seconds (local_second E t) = Ok d
    /\ LogRow.start_time r = strftime_Ymd_HMS d
    /\ LogRow.hour r = hour d /\ LogRow.day r = day d
    /\ LogRow.week r = strftime_W d /\ LogRow.month r = month d
    /\ LogRow.year r = year d /\ LogRow.weekday r = strftime_A d.
Proof.
  intros Hr. destruct (Event.ts e) as [t|] eqn:Hts.
  - destruct (TimeFacts.time_columns_fields E e r t Hr Hts) as (d & Hd).
    now exists t, d.
  - rewrite (LambdaFacts.time_columns_None E e Hts) in Hr. discriminate.
Qed.

Lemma weekday_range (d : datetime) : 0 <= weekday d <= 6.
Proof.
  unfold weekday. pose proof (Z.mod_pos_bound (toordinal d + 6) 7). lia.
Qed.

Lemma strftime_A_day_name (d : datetime) : strftime_A d = day_name (weekday d).
Proof. reflexivity. Qed.

(** Equal texts of [start_time] come from equal local seconds. *)
Lemma start_time_second (s1 s2 : Z) (d1 d2 : datetime) :
  of_seconds s1 = Ok d1 -> of_seconds s2 = Ok d2 ->
  strftime_Ymd_HMS d1 = strftime_Ymd_HMS d2 -> s1 = s2.
Proof.
  intros H1 H2 Heq.
  pose proof (RangeFacts.of_seconds_round_trip s1 d1 H1) as R1.
  pose proof (RangeFacts.of_seconds_round_trip s2 d2 H2) as R2.
  apply RangeFacts.of_seconds_Ok in H1
    as (_ & _ & Hy1 & Hm1 & Hdim1 & Hd1 & Hh1 & Hi1 & Hs1 & _).
  apply RangeFacts.of_seconds_Ok in H2
    as (_ & _ & Hy2 & Hm2 & Hdim2 & Hd2 & Hh2 & Hi2 & Hs2 & _).
  assert (Bh1 : 0 <= hour d1 < 100)
    by (rewrite Hh1; Z.to_euclidean_division_equations; lia).
  assert (Bh2 : 0 <= hour d2 < 100)
    by (rewrite Hh2; Z.to_euclidean_division_equations; lia).
  assert (Bi1 : 0 <= minute d1 < 100)
    by (rewrite Hi1; Z.to_euclidean_division_equations; lia).
  assert (Bi2 : 0 <= minute d2 < 100)
    by (rewrite Hi2; Z.to_euclidean_division_equations; lia).
  assert (Bs1 : 0 <= second d1 < 100)
    by (rewrite Hs1; Z.to_euclidean_division_equations; lia).
  assert (Bs2 : 0 <= second d2 < 100)
    by (rewrite Hs2; Z.to_euclidean_division_equations; lia).
  assert (Hd : d1 = d2)
    by (apply FormatFacts.strftime_Ymd_HMS_inj; try lia; exact Heq).
  subst d2. lia.
Qed.

End TimeTableFacts.

(* ================================================================== *)
(** * The frame of the plays and the join *)
(* ================================================================== *)

Module FactFacts.
Import Spark.

(** The condition of the join is the comparison of the three columns. *)
Lemma songplays_on_triple (sp : LogRow.t * Z) (c : Song.t) :
  songplays_on sp c = triple_matches (LogRow.event (fst sp)) c.
Proof. reflexivity. Qed.

Lemma sql_eq_string (x y : option string) :
  sql_eq String.eqb x y = true <-> exists a, x = Some a /\ y = Some a.
Proof.
  destruct x as [a|], y as [b|]; simpl; split;
    try discriminate; try (intros (c & H1 & H2); discriminate).
  - intros H. apply String.eqb_eq in H as ->. now exists b.
  - intros (c & H1 & H2). injection H1 as ->. injection H2 as ->.
    apply String.eqb_refl.
Qed.

Lemma sql_eq_Q (x y : option Q) :
  sql_eq Qeq_bool x y = true
  <-> exists a b, x = Some a /\ y = Some b /\ (a == b)%Q.
Proof.
  destruct x as [a|], y as [b|]; simpl; split;
    try discriminate; try (intros (c & d & H1 & H2 & _); discriminate).
  - intros H. apply Qeq_bool_iff in H. now exists a, b.
  - intros (c & d & H1 & H2 & H). injection H1 as ->. injection H2 as ->.
    now apply Qeq_bool_iff.
Qed.

(** [triple_matches] decides [exact_match]. *)
Lemma triple_matches_exact (e : Event.t) (c : Song.t) :
  triple_matches e c = true <-> exact_match e c.
Proof.
  unfold triple_matches, exact_match.
  rewrite !andb_true_iff, !sql_eq_string, sql_eq_Q. split.
  - intros [[(a & Ha1 & Ha2) (t & Ht1 & Ht2)] (x & y & Hx & Hy & Hxy)].
    exists a, t, x, y. repeat split; assumption.
  - intros (a & t & x & y & Ha1 & Ha2 & Ht1 & Ht2 & Hx & Hy & Hxy).
    split; [split|]; [now exists a | now exists t | now exists x, y].
Qed.

(** An event matches a record of the catalog exactly when it matches at
    least one row of the frame. *)
Lemma match_count_pos (song_df : DataFrame Song.t) (e : Event.t) :
  (0 < match_count song_df e)%nat
  <-> exists c, In c (collect song_df) /\ exact_match e c.
Proof.
  unfold match_count. rewrite SparkFacts.filter_nonempty. split.
  - intros (c & Hc & Hm). exists c. split; [exact Hc|].
    now apply triple_matches_exact.
  - intros (c & Hc & Hm). exists c. split; [exact Hc|].
    now apply triple_matches_exact.
Qed.

(** Numbering the rows of a frame leaves them as they are. *)
Lemma numbered_rows (rows : DataFrame LogRow.t) :
  map fst (collect (with_monotonically_increasing_id rows)) = collect rows.
Proof.
  unfold with_monotonically_increasing_id.
  now rewrite <- IdFacts.collect_map, IdFacts.number_partitions_fst.
Qed.

(** Within the documented capacity no two rows get the same id. *)
Lemma numbered_ids_NoDup (rows : DataFrame LogRow.t) :
  fits rows ->
  NoDup (map snd (collect (with_monotonically_increasing_id rows))).
Proof.
  intros Hfits. now apply IdFacts.StronglySorted_lt_NoDup, IdFacts.ids_increase.
Qed.

Lemma NoDup_map_inj {A B : Type} (f : A -> B) (l : list A) :
  NoDup (map f l) -> forall a b, In a l -> In b l -> f a = f b -> a = b.
Proof.
  induction l as [|x l IH]; simpl; intros Hnd a b Ha Hb Hab; [contradiction|].
  inversion Hnd as [|y ys Hx Hl]; subst.
  destruct Ha as [<-|Ha], Hb as [<-|Hb].
  - reflexivity.
  - exfalso. apply Hx. rewrite Hab. now apply in_map.
  - exfalso. apply Hx. rewrite <- Hab. now apply in_map.
  - now apply IH.
Qed.

(** The ids of the pairs of the join, before the engine gives them out:
    each row of the left side has its id once per match. *)
Lemma matching_pairs_ids (cat : list Song.t) (l : list (LogRow.t * Z)) :
  map SongplaysRow.songplay_id
      (matching_pairs songplays_on songplays_columns l cat)
  = ids_of snd (fun sp => List.length (filter (songplays_on sp) cat)) l.
Proof.
  unfold matching_pairs, ids_of. induction l as [|sp l IH]; simpl;
    [reflexivity|].
  rewrite map_app, IH. f_equal.
  induction (filter (songplays_on sp) cat) as [|c cs IHc]; simpl;
    [reflexivity | now rewrite IHc].
Qed.

(** The column [songplay_id] of the fact table, up to the order of the
    rows. *)
Lemma songplay_ids_census (E : Env) (song_df : DataFrame Song.t)
      (df : DataFrame LogRow.t) :
  Permutation
    (map SongplaysRow.songplay_id (songplays_table E song_df df))
    (ids_of snd (fun sp => match_count song_df (LogRow.event (fst sp)))
            (collect (with_monotonically_increasing_id df))).
Proof.
  unfold songplays_table, join.
  eapply Permutation_trans; [apply Permutation_map, emit_perm|].
  rewrite matching_pairs_ids. apply Permutation_refl.
Qed.

(** On an engine that gives the pairs out as listed the column is that
    list itself. *)
Lemma songplay_ids_listed (E : Env) (song_df : DataFrame Song.t)
      (df : DataFrame LogRow.t) :
  (forall l : list SongplaysRow.t, emit E SongplaysRow.t l = l) ->
  map SongplaysRow.songplay_id (songplays_table E song_df df)
  = ids_of snd (fun sp => match_count song_df (LogRow.event (fst sp)))
           (collect (with_monotonically_increasing_id df)).
Proof.
  intros Hemit. unfold songplays_table, join.
  rewrite Hemit. apply matching_pairs_ids.
Qed.

(** A row of the fact table is the select list on a numbered row and a
    row of the catalog that satisfy the condition. *)
Lemma fact_row_origin (E : Env) (song_df : DataFrame Song.t)
      (df : DataFrame LogRow.t) (row : SongplaysRow.t) :
  In row (songplays_table E song_df df)
  <-> exists sp c,
        In sp (collect (with_monotonically_increasing_id df))
        /\ In c (collect song_df)
        /\ songplays_on sp c = true
        /\ row = songplays_columns sp c.
Proof.
  unfold songplays_table, join.
  transitivity (In row (matching_pairs songplays_on songplays_columns
                          (collect (with_monotonically_increasing_id df))
                          (collect song_df))).
  { split; apply Permutation_in;
      [apply emit_perm | apply Permutation_sym, emit_perm]. }
  unfold matching_pairs. rewrite in_flat_map. split.
  - intros (sp & Hsp & Hrow). apply in_map_iff in Hrow as (c & <- & Hc).
    apply filter_In in Hc as [Hc Hon]. now exists sp, c.
  - intros (sp & c & Hsp & Hc & Hon & ->). exists sp. split; [exact Hsp|].
    apply in_map, filter_In. now split.
Qed.

(** The frame of the plays: its rows are the time columns of the events
    with page [NextSong], in their order, partition by partition. *)
Lemma plays_frame_events (E : Env) (log_df : DataFrame Event.t)
      (df : DataFrame LogRow.t) :
  plays_frame E log_df = Ok df ->
  map LogRow.event (collect df) = filter is_NextSong (collect log_df).
Proof.
  unfold plays_frame. intros H.
  rewrite <- IdFacts.collect_map.
  rewrite (SparkFacts.with_columns_keeps _ LogRow.event
             (LambdaFacts.time_columns_event E) _ _ H).
  apply SparkFacts.collect_where_.
Qed.

Lemma plays_frame_each (E : Env) (log_df : DataFrame Event.t)
      (df : DataFrame LogRow.t) (r : LogRow.t) :
  plays_frame E log_df = Ok df -> In r (collect df) ->
  time_columns E (LogRow.event r) = Ok r.
Proof.
  unfold plays_frame. intros H Hr.
  exact (SparkFacts.with_columns_each _ LogRow.event
           (LambdaFacts.time_columns_event E) _ _ r H Hr).
Qed.

(** Year and month of a row are those the lambdas compute for its
    event. *)
Lemma time_columns_year_month (E : Env) (e : Event.t) (r : LogRow.t) :
  time_columns E e = Ok r ->
  get_year E (Event.ts e) = Ok (LogRow.year r)
  /\ get_month E (Event.ts e) = Ok (LogRow.month r).
Proof.
  unfold time_columns, bind_result. intros H.
  destruct (get_timestamp (Event.ts e)); [|discriminate].
  destruct (get_datetime E (Event.ts e)); [|discriminate].
  destruct (get_hour E (Event.ts e)); [|discriminate].
  destruct (get_day E (Event.ts e)); [|discriminate].
  destruct (get_week E (Event.ts e)); [|discriminate].
  destruct (get_month E (Event.ts e)) as [mo|]; [|discriminate].
  destruct (get_year E (Event.ts e)) as [ye|]; [|discriminate].
  destruct (get_weekday E (Event.ts e)); [|discriminate].
  injection H as <-. split; reflexivity.
Qed.

Lemma time_columns_timestamp (E : Env) (e : Event.t) (r : LogRow.t) (t : Z) :
  time_columns E e = Ok r -> Event.ts e = Some t ->
  LogRow.timestamp r = Z.quot t 1000.
Proof.
  unfold time_columns, bind_result, get_timestamp, on_ts. intros H Hts.
  rewrite Hts in H.
  repeat match type of H with
         | match ?x with Ok _ => _ | Raise _ => _ end = _ =>
             destruct x; [|discriminate]
         end.
  now injection H as <-.
Qed.

(** The three steps of the script raise and leave the sink as it was. *)
Lemma process_song_data_raises (E : Env) (inp : Input) (out : string)
      (s : Sink) :
  process_song_data E inp out s
  = (match read_json Song.null E (song_data inp) with
     | Ok _ => Raise AnalysisException
     | Raise err => Raise err
     end, s).
Proof.
  unfold process_song_data, bind, lift.
  destruct (read_json Song.null E (song_data inp)); reflexivity.
Qed.

Lemma process_log_data_raises (E : Env) (inp : Input) (out : string)
      (s : Sink) :
  process_log_data E inp out s
  = (match read_json Event.null E (log_data inp) with
     | Ok _ => Raise AnalysisException
     | Raise err => Raise err
     end, s).
Proof.
  unfold process_log_data, bind, lift.
  destruct (read_json Event.null E (log_data inp)); reflexivity.
Qed.

Lemma main_raises (E : Env) (inp : Input) (out : string) (s : Sink) :
  main E inp out s
  = (match read_json Song.null E (song_data inp) with
     | Ok _ => Raise AnalysisException
     | Raise err => Raise err
     end, s).
Proof.
  unfold main, bind. rewrite process_song_data_raises.
  destruct (read_json Song.null E (song_data inp)); reflexivity.
Qed.

End FactFacts.

(* ================================================================== *)
(** * The time lambdas: lines 125 to 149 *)
(* ================================================================== *)




(** C9, as stated, fails: the play of [input_1] is at 01:25:34; its year,
    month, day and hour put together again give 01:00:00, 1534 seconds
    earlier. *)
Lemma recombined_hour_not_same_second :
  ~ (forall (E : Env) (e : Event.t) (r : LogRow.t) (t : Z),
        time_columns E e = Ok r -> Event.ts e = Some t ->
        recombine (LogRow.year r) (LogRow.month r) (LogRow.day r) (LogRow.hour r)
        = local_second E t).
Proof.
  intros H.
  destruct (time_columns utc_env event_10) as [r|err] eqn:Hr;
    [|vm_compute in Hr; discriminate Hr].
  specialize (H utc_env event_10 r 1541121934796 Hr eq_refl).
  vm_compute in Hr. injection Hr as <-.
  vm_compute in H. discriminate H.
Qed.

(** C9 (amended): for every event whose time columns are computed, the
    year, month, day and hour put together again give the start of the
    hour of the local clock that holds [ts]: a time in the same hour as
    [ts], at most 3599 seconds before it. *)
Theorem recombined_hour_same_hour (E : Env) (e : Event.t) (r : LogRow.t) (t : Z) :
  time_columns E e = Ok r -> Event.ts e = Some t ->
  recombine (LogRow.year r) (LogRow.month r) (LogRow.day r) (LogRow.hour r)
  = 3600 * (local_second E t / 3600)
  /\ 0 <= local_second E t
          - recombine (LogRow.year r) (LogRow.month r) (LogRow.day r)
                      (LogRow.hour r)
       < 3600.
Proof.
  intros Hr Hts.
  destruct (TimeFacts.time_columns_fields E e r t Hr Hts)
    as (d & Hd & _ & Hhour & Hday & _ & Hmonth & Hyear & _).
  rewrite Hyear, Hmonth, Hday, Hhour.
  rewrite (TimeFacts.of_seconds_recombine _ d Hd).
  split; [reflexivity|].
  pose proof (Z.div_mod (local_second E t) 3600).
  pose proof (Z.mod_pos_bound (local_second E t) 3600).
  lia.
Qed.

(** [recombined_hour_same_hour] on the play of [input_1]. *)
Lemma recombined_hour_same_hour_witness :
  recombine 2018 11 2 1 = 3600 * (local_second utc_env 1541121934796 / 3600)
  /\ 0 <= local_second utc_env 1541121934796 - recombine 2018 11 2 1 < 3600.
Proof.
  apply (recombined_hour_same_hour utc_env event_10
           (LogRow.mk event_10 1541121934 "2018-11-02 01:25:34" 1 2 "44" 11 2018
                      "Friday")
           1541121934796);
    reflexivity.
Defined.

(* ================================================================== *)
(** * The fact table: lines 172 to 189 *)
(* ================================================================== *)

(** C1, as stated, fails on both counts.  One play and a catalog that
    lists its recording twice: the two fact rows carry the id 0, whatever
    the order of the rows.  Two plays that match one record each, on an
    engine that gives the rows of the join out last first: the ids come
    out as 1, 0. *)
Lemma songplay_id_repeated :
  ~ NoDup (map SongplaysRow.songplay_id
               (songplays_table utc_env catalog_2 plays_1))
  /\ ~ StronglySorted Z.lt (map SongplaysRow.songplay_id
                                (songplays_table cet_rev_env catalog_1 plays_2)).
Proof.
  split.
  - intros H. vm_compute in H. inversion H as [|x l Hin _]; subst.
    apply Hin. now left.
  - intros H. vm_compute in H. inversion H as [|x l _ Hall]; subst.
    inversion Hall as [|y l' Hlt _]; subst. discriminate Hlt.
Qed.

(** C1 (amended): for a frame within the capacity of the id generator,
    the ids of the fact table are pairwise distinct exactly when no play
    matches more than one row of the catalog; the order of the rows is
    that of the join, which the query leaves to the engine, and on an
    engine that gives the joined rows out in the order of the plays the
    ids never decrease, and increase strictly in that same case. *)
Theorem songplay_ids_distinct_iff
        (E : Env) (song_df : Spark.DataFrame Song.t)
        (df : Spark.DataFrame LogRow.t) :
  Spark.fits df ->
  (NoDup (map SongplaysRow.songplay_id (songplays_table E song_df df))
   <-> forall r, In r (Spark.collect df) ->
                 (match_count song_df (LogRow.event r) <= 1)%nat)
  /\ ((forall l : list SongplaysRow.t, emit E SongplaysRow.t l = l) ->
      StronglySorted Z.le
        (map SongplaysRow.songplay_id (songplays_table E song_df df))
      /\ (StronglySorted Z.lt
            (map SongplaysRow.songplay_id (songplays_table E song_df df))
          <-> forall r, In r (Spark.collect df) ->
                        (match_count song_df (LogRow.event r) <= 1)%nat)).
Proof.
  intros Hfits.
  pose proof (IdFacts.ids_increase df Hfits) as Hsorted.
  pose proof (FactFacts.songplay_ids_census E song_df df) as Hperm.
  set (k := fun sp : LogRow.t * Z => match_count song_df (LogRow.event (fst sp)))
    in *.
  set (numbered := Spark.collect (Spark.with_monotonically_increasing_id df))
    in *.
  assert (Hk : (forall r, In r (Spark.collect df) ->
                          (match_count song_df (LogRow.event r) <= 1)%nat)
               <-> forall sp, In sp numbered -> (k sp <= 1)%nat).
  { rewrite <- (FactFacts.numbered_rows df). fold numbered. split.
    - intros H sp Hsp. apply H. now apply in_map.
    - intros H r Hr. apply in_map_iff in Hr as (sp & <- & Hsp).
      now apply H. }
  split.
  - rewrite Hk. split.
    + intros Hnd. apply (IdFacts.ids_of_NoDup snd k numbered).
      exact (Permutation_NoDup Hperm Hnd).
    + intros Hle.
      apply (Permutation_NoDup (Permutation_sym Hperm)).
      apply IdFacts.StronglySorted_lt_NoDup.
      now apply IdFacts.ids_of_sorted_lt.
  - intros Hemit.
    assert (Hl : map SongplaysRow.songplay_id (songplays_table E song_df df)
                 = ids_of snd k numbered)
      by exact (FactFacts.songplay_ids_listed E song_df df Hemit).
    rewrite Hl, Hk. split; [|split].
    + now apply IdFacts.ids_of_sorted_le.
    + intros Hlt. apply (IdFacts.ids_of_NoDup snd k numbered).
      now apply IdFacts.StronglySorted_lt_NoDup.
    + intros Hle. now apply IdFacts.ids_of_sorted_lt.
Qed.

(** [songplay_ids_distinct_iff] on two plays and a catalog that lists
    their recording twice: the ids are 0, 0, 1, 1. *)
Lemma songplay_ids_distinct_iff_witness :
  Spark.fits plays_2
  /\ (NoDup (map SongplaysRow.songplay_id
                 (songplays_table utc_env catalog_2 plays_2))
      <-> forall r, In r (Spark.collect plays_2) ->
                    (match_count catalog_2 (LogRow.event r) <= 1)%nat)
  /\ ((forall l : list SongplaysRow.t, emit utc_env SongplaysRow.t l = l) ->
      StronglySorted Z.le
        (map SongplaysRow.songplay_id
             (songplays_table utc_env catalog_2 plays_2))
      /\ (StronglySorted Z.lt
            (map SongplaysRow.songplay_id
                 (songplays_table utc_env catalog_2 plays_2))
          <-> forall r, In r (Spark.collect plays_2) ->
                        (match_count catalog_2 (LogRow.event r) <= 1)%nat)).
Proof.
  assert (Hfits : Spark.fits plays_2).
  { split; [vm_compute; discriminate
           | repeat constructor; vm_compute; discriminate]. }
  split; [exact Hfits|].
  exact (songplay_ids_distinct_iff utc_env catalog_2 plays_2 Hfits).
Defined.

(** C2, as stated, fails: one play and a catalog that lists its
    recording twice give two fact rows. *)
Lemma more_rows_than_plays :
  ~ (forall (E : Env) (song_df : Spark.DataFrame Song.t)
            (log_df : Spark.DataFrame Event.t) (df : Spark.DataFrame LogRow.t),
        plays_frame E log_df = Ok df ->
        (List.length (songplays_table E song_df df)
         <= List.length (filter is_NextSong (Spark.collect log_df)))%nat).
Proof.
  intros H.
  specialize (H utc_env catalog_2 [[event_10]] plays_1 eq_refl).
  vm_compute in H. lia.
Qed.

(** C2 (amended): when no event with page [NextSong] matches more than
    one row of the catalog, the fact table has at most as many rows as
    there are such events, and as many exactly when each of them matches
    a row of the catalog on artist, title and length. *)
Theorem rows_at_most_plays
        (E : Env) (song_df : Spark.DataFrame Song.t)
        (log_df : Spark.DataFrame Event.t) (df : Spark.DataFrame LogRow.t) :
  plays_frame E log_df = Ok df ->
  (forall e, In e (Spark.collect log_df) -> is_NextSong e = true ->
             (match_count song_df e <= 1)%nat) ->
  (List.length (songplays_table E song_df df)
   <= List.length (filter is_NextSong (Spark.collect log_df)))%nat
  /\ (List.length (songplays_table E song_df df)
      = List.length (filter is_NextSong (Spark.collect log_df))
      <-> forall e, In e (Spark.collect log_df) -> is_NextSong e = true ->
                    exists c, In c (Spark.collect song_df) /\ exact_match e c).
Proof.
  intros Hdf Hone.
  pose proof (FactFacts.plays_frame_events E log_df df Hdf) as Hev.
  pose proof (FactFacts.songplay_ids_census E song_df df) as Hperm.
  apply Permutation_length in Hperm.
  rewrite length_map, IdFacts.ids_of_length in Hperm.
  rewrite <- (map_map fst (fun r => match_count song_df (LogRow.event r)))
    in Hperm.
  rewrite FactFacts.numbered_rows in Hperm.
  rewrite <- (map_map LogRow.event (match_count song_df)) in Hperm.
  rewrite Hev in Hperm. rewrite Hperm.
  destruct (IdFacts.list_sum_le_length
              (match_count song_df)
              (filter is_NextSong (Spark.collect log_df))) as [Hle Hiff].
  { intros e He. apply filter_In in He as [He Hp]. now apply Hone. }
  split; [exact Hle|]. rewrite Hiff. split.
  - intros H e He Hp. apply FactFacts.match_count_pos, H, filter_In.
    now split.
  - intros H e He. apply filter_In in He as [He Hp].
    apply FactFacts.match_count_pos. now apply H.
Qed.

(** [rows_at_most_plays] on a log of two plays and an event of another
    page, with a catalog of one record. *)
Lemma rows_at_most_plays_witness :
  (List.length (songplays_table utc_env catalog_1 plays_2)
   <= List.length (filter is_NextSong (Spark.collect log_2)))%nat
  /\ (List.length (songplays_table utc_env catalog_1 plays_2)
      = List.length (filter is_NextSong (Spark.collect log_2))
      <-> forall e, In e (Spark.collect log_2) -> is_NextSong e = true ->
                    exists c, In c (Spark.collect catalog_1)
                              /\ exact_match e c).
Proof.
  apply (rows_at_most_plays utc_env catalog_1 log_2 plays_2).
  - reflexivity.
  - intros e He _. simpl in He.
    destruct He as [<-|[<-|[<-|[]]]]; vm_compute; lia.
Defined.

(** C7: a row of the frame of the plays has a fact row exactly when its
    event matches a row of the catalog on artist, title and length, the
    three at once; the rows of the table are those of the join itself.
    In particular a play whose length differs by a nonzero amount from
    the duration of every row of the catalog has no fact row. *)
Theorem inexact_match_no_row
        (E : Env) (song_df : Spark.DataFrame Song.t)
        (df : Spark.DataFrame LogRow.t) (sp : LogRow.t * Z) :
  Spark.fits df ->
  In sp (Spark.collect (Spark.with_monotonically_increasing_id df)) ->
  ((exists row, In row (songplays_table E song_df df)
                /\ SongplaysRow.songplay_id row = snd sp)
   <-> exists c, In c (Spark.collect song_df)
                 /\ exact_match (LogRow.event (fst sp)) c)
  /\ ((forall c x y, In c (Spark.collect song_df) ->
                     Event.length (LogRow.event (fst sp)) = Some x ->
                     Song.duration c = Some y -> ~ (x - y == 0)%Q) ->
      forall row, In row (songplays_table E song_df df) ->
                  SongplaysRow.songplay_id row <> snd sp).
Proof.
  intros Hfits Hsp.
  pose proof (FactFacts.numbered_ids_NoDup df Hfits) as Hnd.
  assert (Hiff : (exists row, In row (songplays_table E song_df df)
                              /\ SongplaysRow.songplay_id row = snd sp)
                 <-> exists c, In c (Spark.collect song_df)
                               /\ exact_match (LogRow.event (fst sp)) c).
  { split.
    - intros (row & Hrow & Hid).
      apply FactFacts.fact_row_origin in Hrow as (sp' & c & Hsp' & Hc & Hon & ->).
      cbn [songplays_columns SongplaysRow.songplay_id] in Hid.
      pose proof (FactFacts.NoDup_map_inj snd _ Hnd sp' sp Hsp' Hsp Hid) as ->.
      exists c. split; [exact Hc|].
      apply FactFacts.triple_matches_exact.
      now rewrite <- FactFacts.songplays_on_triple.
    - intros (c & Hc & Hm). exists (songplays_columns sp c). split.
      + apply FactFacts.fact_row_origin. exists sp, c.
        split; [exact Hsp|]. split; [exact Hc|]. split; [|reflexivity].
        rewrite FactFacts.songplays_on_triple.
        now apply FactFacts.triple_matches_exact.
      + reflexivity. }
  split; [exact Hiff|].
  intros Hdiff row Hrow Hid.
  destruct Hiff as [Hto _].
  destruct Hto as (c & Hc & a & t & x & y & _ & _ & _ & _ & Hx & Hy & Hxy);
    [now exists row|].
  apply (Hdiff c x y Hc Hx Hy).
  rewrite Hxy. unfold Qminus. apply Qplus_opp_r.
Qed.

(** [inexact_match_no_row] on a play of length 210 and a play of length
    210.5 of the same song, which the catalog lists with duration
    210.5: the first play, numbered 0, has no fact row. *)
Lemma inexact_match_no_row_witness :
  ((exists row, In row (songplays_table utc_env catalog_1 plays_6)
                /\ SongplaysRow.songplay_id row = 0)
   <-> exists c, In c (Spark.collect catalog_1) /\ exact_match event_short c)
  /\ forall row, In row (songplays_table utc_env catalog_1 plays_6) ->
                 SongplaysRow.songplay_id row <> 0.
Proof.
  assert (Hfits : Spark.fits plays_6).
  { split; [vm_compute; discriminate
           | repeat constructor; vm_compute; discriminate]. }
  assert (Hsp : In (row_short, 0)
                   (Spark.collect
                      (Spark.with_monotonically_increasing_id plays_6))).
  { now left. }
  destruct (inexact_match_no_row utc_env catalog_1 plays_6 (row_short, 0)
                                 Hfits Hsp) as [Hiff Hnone].
  split; [exact Hiff|].
  apply Hnone. intros c x y Hc Hx Hy.
  destruct Hc as [<-|[]].
  injection Hx as <-. injection Hy as <-.
  intros H. vm_compute in H. discriminate H.
Defined.

(** C10: the id is given to a row of the frame of the plays before the
    join: a play that matches [k] rows of the catalog has [k] fact rows,
    each with the id of the play, which no fact row of another play
    has. *)
Theorem matches_share_songplay_id
        (E : Env) (song_df : Spark.DataFrame Song.t)
        (df : Spark.DataFrame LogRow.t) (sp : LogRow.t * Z) :
  Spark.fits df ->
  In sp (Spark.collect (Spark.with_monotonically_increasing_id df)) ->
  count_occ Z.eq_dec
            (map SongplaysRow.songplay_id (songplays_table E song_df df))
            (snd sp)
  = match_count song_df (LogRow.event (fst sp))
  /\ (forall row, In row (songplays_table E song_df df) ->
                  SongplaysRow.songplay_id row = snd sp ->
                  exists c, In c (Spark.collect song_df)
                            /\ exact_match (LogRow.event (fst sp)) c
                            /\ row = songplays_columns sp c)
  /\ (forall c, In c (Spark.collect song_df) ->
                exact_match (LogRow.event (fst sp)) c ->
                In (songplays_columns sp c) (songplays_table E song_df df)).
Proof.
  intros Hfits Hsp.
  pose proof (FactFacts.numbered_ids_NoDup df Hfits) as Hnd.
  split; [|split].
  - pose proof (FactFacts.songplay_ids_census E song_df df) as Hperm.
    rewrite (Permutation_count_occ Z.eq_dec) in Hperm. rewrite Hperm.
    exact (IdFacts.ids_of_count
             snd (fun sp => match_count song_df (LogRow.event (fst sp)))
             _ Hnd sp Hsp).
  - intros row Hrow Hid.
    apply FactFacts.fact_row_origin in Hrow as (sp' & c & Hsp' & Hc & Hon & ->).
    cbn [songplays_columns SongplaysRow.songplay_id] in Hid.
    pose proof (FactFacts.NoDup_map_inj snd _ Hnd sp' sp Hsp' Hsp Hid) as ->.
    exists c. split; [exact Hc|]. split; [|reflexivity].
    apply FactFacts.triple_matches_exact.
    now rewrite <- FactFacts.songplays_on_triple.
  - intros c Hc Hm. apply FactFacts.fact_row_origin. exists sp, c.
    split; [exact Hsp|]. split; [exact Hc|]. split; [|reflexivity].
    rewrite FactFacts.songplays_on_triple.
    now apply FactFacts.triple_matches_exact.
Qed.

(** [matches_share_songplay_id] on two plays and a catalog that lists
    their recording twice: the second play, numbered 1, has two fact
    rows with the id 1. *)
Lemma matches_share_songplay_id_witness :
  count_occ Z.eq_dec
            (map SongplaysRow.songplay_id
                 (songplays_table utc_env catalog_2 plays_2)) 1
  = 2%nat
  /\ (forall row, In row (songplays_table utc_env catalog_2 plays_2) ->
                  SongplaysRow.songplay_id row = 1 ->
                  exists c, In c (Spark.collect catalog_2)
                            /\ exact_match event_11 c
                            /\ row = songplays_columns (row_11, 1) c)
  /\ (forall c, In c (Spark.collect catalog_2) ->
                exact_match event_11 c ->
                In (songplays_columns (row_11, 1) c)
                   (songplays_table utc_env catalog_2 plays_2)).
Proof.
  assert (Hfits : Spark.fits plays_2).
  { split; [vm_compute; discriminate
           | repeat constructor; vm_compute; discriminate]. }
  assert (Hsp : In (row_11, 1)
                   (Spark.collect
                      (Spark.with_monotonically_increasing_id plays_2))).
  { right. now left. }
  exact (matches_share_songplay_id utc_env catalog_2 plays_2 (row_11, 1)
                                   Hfits Hsp).
Defined.

(* ================================================================== *)
(** * The rows of the time query: lines 125 to 160 *)
(* ================================================================== *)

(** C4, as stated, fails: two plays one millisecond apart within one
    second have the same time columns, so the time query, whatever it
    keeps, has one row to select for the two. *)
Lemma one_time_row_for_two_ts :
  ~ (forall (E : Env) (e1 e2 : Event.t) (r1 r2 : LogRow.t),
        time_columns E e1 = Ok r1 -> time_columns E e2 = Ok r2 ->
        Event.ts e1 <> Event.ts e2 ->
        time_table_columns r1 <> time_table_columns r2).
Proof.
  intros H.
  apply (H utc_env event_10 (play 1541121934797 "10" "free" (421 # 2))
           row_10
           (LogRow.mk (play 1541121934797 "10" "free" (421 # 2)) 1541121934
                      "2018-11-02 01:25:34" 1 2 "44" 11 2018 "Friday"));
    [reflexivity | reflexivity | discriminate | reflexivity].
Qed.

(** C4 (amended): the row the time query selects for a play is the row
    of the second of the local clock its [ts] falls in: two plays have
    the same row exactly when their [ts] fall in the same second of that
    clock, as do two [ts] within one second, and two rows with the same
    [start_time] are the same row. *)
Theorem time_row_per_local_second
        (E : Env) (e1 e2 : Event.t) (r1 r2 : LogRow.t) (t1 t2 : Z) :
  time_columns E e1 = Ok r1 -> Event.ts e1 = Some t1 ->
  time_columns E e2 = Ok r2 -> Event.ts e2 = Some t2 ->
  (time_table_columns r1 = time_table_columns r2
   <-> local_second E t1 = local_second E t2)
  /\ (t1 / 1000 = t2 / 1000 ->
      time_table_columns r1 = time_table_columns r2)
  /\ (LogRow.start_time r1 = LogRow.start_time r2 ->
      time_table_columns r1 = time_table_columns r2).
Proof.
  intros Hr1 Hts1 Hr2 Hts2.
  destruct (TimeFacts.time_columns_fields E e1 r1 t1 Hr1 Hts1)
    as (d1 & Hd1 & Hst1 & Hh1 & Hday1 & Hw1 & Hm1 & Hy1 & Hwd1).
  destruct (TimeFacts.time_columns_fields E e2 r2 t2 Hr2 Hts2)
    as (d2 & Hd2 & Hst2 & Hh2 & Hday2 & Hw2 & Hm2 & Hy2 & Hwd2).
  assert (Hsame : local_second E t1 = local_second E t2 ->
                  time_table_columns r1 = time_table_columns r2).
  { intros Heq. rewrite Heq in Hd1. rewrite Hd1 in Hd2.
    injection Hd2 as <-. unfold time_table_columns.
    now rewrite Hst1, Hst2, Hh1, Hh2, Hday1, Hday2, Hw1, Hw2, Hm1, Hm2,
      Hy1, Hy2, Hwd1, Hwd2. }
  assert (Hkey : LogRow.start_time r1 = LogRow.start_time r2 ->
                 local_second E t1 = local_second E t2).
  { rewrite Hst1, Hst2.
    apply (TimeTableFacts.start_time_second _ _ d1 d2 Hd1 Hd2). }
  split; [split|split].
  - intros Heq. apply Hkey.
    change (TimeRow.start_time (time_table_columns r1)
            = TimeRow.start_time (time_table_columns r2)).
    now rewrite Heq.
  - exact Hsame.
  - intros Heq. apply Hsame. unfold local_second. now rewrite Heq.
  - intros Heq. now apply Hsame, Hkey.
Qed.

(** [time_row_per_local_second] on two plays one millisecond apart. *)
Lemma time_row_per_local_second_witness :
  (time_table_columns row_10
   = time_table_columns
       (LogRow.mk (play 1541121934797 "10" "free" (421 # 2)) 1541121934
                  "2018-11-02 01:25:34" 1 2 "44" 11 2018 "Friday")
   <-> local_second utc_env 1541121934796 = local_second utc_env 1541121934797)
  /\ (1541121934796 / 1000 = 1541121934797 / 1000 ->
      time_table_columns row_10
      = time_table_columns
          (LogRow.mk (play 1541121934797 "10" "free" (421 # 2)) 1541121934
                     "2018-11-02 01:25:34" 1 2 "44" 11 2018 "Friday"))
  /\ (LogRow.start_time row_10
      = LogRow.start_time
          (LogRow.mk (play 1541121934797 "10" "free" (421 # 2)) 1541121934
                     "2018-11-02 01:25:34" 1 2 "44" 11 2018 "Friday") ->
      time_table_columns row_10
      = time_table_columns
          (LogRow.mk (play 1541121934797 "10" "free" (421 # 2)) 1541121934
                     "2018-11-02 01:25:34" 1 2 "44" 11 2018 "Friday")).
Proof.
  apply (time_row_per_local_second utc_env event_10
           (play 1541121934797 "10" "free" (421 # 2)));
    reflexivity.
Defined.

(* ================================================================== *)
(** * The four queries that deduplicate: lines 51, 67, 113 and 152 *)
(* ================================================================== *)

(** C5: on a catalog with two records of song S1 and a log of one play,
    neither step builds a table: the query of the songs is refused, the
    step raises before its first write, and so does the step of the log
    at the query of the users.  It is the same on [input_1], where no key
    is there twice. *)
Lemma dimension_tables_not_built :
  process_song_data utc_env input_4 "out/" [] = (Raise AnalysisException, [])
  /\ process_log_data utc_env input_4 "out/" [] = (Raise AnalysisException, [])
  /\ main utc_env input_4 "out/" [] = (Raise AnalysisException, [])
  /\ main utc_env input_1 "out/" [] = (Raise AnalysisException, []).
Proof. repeat split. Qed.

(** C6: the query that is to keep one record of song S1 out of two
    keeps none, on one machine as on another: it is refused, and the run
    ends there with nothing written. *)
Lemma no_record_retained :
  Spark.select_distinct_on Song.song_id songs_columns [[song_S1; song_S1']]
  = Raise AnalysisException
  /\ main utc_env input_4 "out/" [] = (Raise AnalysisException, [])
  /\ main cet_rev_env input_4 "out/" [] = (Raise AnalysisException, []).
Proof. repeat split. Qed.

(* ================================================================== *)
(** * The two reads: lines 44 to 47 and 102 to 105 *)
(* ================================================================== *)




(* ================================================================== *)
(** * More of the script *)
(* ================================================================== *)

(** X1: the eight time lambdas on one event raise [TypeError] exactly
    when [ts] is null; when they give the time columns, the row keeps the
    event, [timestamp] is [ts / 1000] cut towards zero, and the second of
    the local clock at [ts] is one of the years 1 to 9999. *)
Theorem time_columns_defined_in_range (E : Env) (e : Event.t) :
  (time_columns E e = Raise TypeError <-> Event.ts e = None)
  /\ (forall r, time_columns E e = Ok r ->
        LogRow.event r = e
        /\ exists t, Event.ts e = Some t
                     /\ LogRow.timestamp r = Z.quot t 1000
                     /\ MIN_SECOND <= local_second E t < END_SECOND).
Proof.
  split.
  - split; [|apply LambdaFacts.time_columns_None].
    intros H. destruct (Event.ts e) as [t|] eqn:Hts; [|reflexivity].
    destruct (LambdaFacts.time_columns_Some E e t Hts) as [[r Hr]|Herr];
      congruence.
  - intros r Hr. split; [now apply (LambdaFacts.time_columns_event E)|].
    destruct (TimeTableFacts.time_columns_datetime E e r Hr)
      as (t & d & Hts & Hd & _).
    exists t. split; [exact Hts|]. split.
    + now apply (FactFacts.time_columns_timestamp E e r t).
    + now apply RangeFacts.of_seconds_Ok in Hd as (_ & Hrange & _).
Qed.

(** X8: the time columns of an event are in the ranges of a calendar:
    hour in 0 .. 23, day in 1 .. 31 and a day of its month, month in
    1 .. 12, year in 1 .. 9999, week a two-digit text from 00 to 53 and
    weekday one of the seven English names. *)
Theorem time_columns_in_range (E : Env) (e : Event.t) (r : LogRow.t) :
  time_columns E e = Ok r ->
  0 <= TimeRow.hour (time_table_columns r) <= 23
  /\ 1 <= TimeRow.day (time_table_columns r) <= 31
  /\ TimeRow.day (time_table_columns r)
     <= PyDatetime._days_in_month (TimeRow.year (time_table_columns r))
                                  (TimeRow.month (time_table_columns r))
  /\ 1 <= TimeRow.month (time_table_columns r) <= 12
  /\ 1 <= TimeRow.year (time_table_columns r) <= 9999
  /\ (exists w, 0 <= w <= 53
                /\ TimeRow.week (time_table_columns r) = PyDatetime.pad2 w)
  /\ (exists i, 0 <= i <= 6
                /\ TimeRow.weekday (time_table_columns r) = day_name i).
Proof.
  intros Hcols.
  destruct (TimeTableFacts.time_columns_datetime E _ r Hcols)
    as (t & d & _ & Hd & _ & Hhour & Hday & Hweek & Hmonth & Hyear & Hwd).
  apply RangeFacts.of_seconds_Ok in Hd
    as (_ & _ & Hy & Hm & Hdim & Hd31 & Hh & _ & _ & Hj).
  pose proof (TimeTableFacts.weekday_range d) as Hw.
  cbn [time_table_columns TimeRow.hour TimeRow.day TimeRow.week TimeRow.month
       TimeRow.year TimeRow.weekday].
  rewrite Hhour, Hday, Hweek, Hmonth, Hyear, Hwd.
  pose proof (Z.mod_pos_bound (local_second E t) 86400).
  repeat split; try lia.
  - rewrite Hh. apply Z.div_pos; lia.
  - rewrite Hh. apply Z.lt_succ_r, Z.div_lt_upper_bound; lia.
  - exists ((PyDatetime.yday0 d + 7 - PyDatetime.weekday d) / 7).
    split; [|reflexivity]. split.
    + apply Z.div_pos; lia.
    + apply Z.lt_succ_r, Z.div_lt_upper_bound; lia.
  - exists (PyDatetime.weekday d). split; [exact Hw|].
    apply TimeTableFacts.strftime_A_day_name.
Qed.

(** [time_columns_in_range] on the play of [input_1]. *)
Lemma time_columns_in_range_witness :
  0 <= 1 <= 23
  /\ 1 <= 2 <= 31
  /\ 2 <= PyDatetime._days_in_month 2018 11
  /\ 1 <= 11 <= 12
  /\ 1 <= 2018 <= 9999
  /\ (exists w, 0 <= w <= 53 /\ "44" = PyDatetime.pad2 w)
  /\ (exists i, 0 <= i <= 6 /\ "Friday" = day_name i).
Proof.
  apply (time_columns_in_range utc_env event_10 row_10). reflexivity.
Defined.

(** X9: the fact table is the inner join of the plays with the catalog
    as read: every row has the [start_time], user, level, session,
    location, agent, year and month of an event with page [NextSong] and
    the [song_id] and [artist_id] of a row of the catalog that matches it
    on artist, title and length, and every such pair has its row. *)
Theorem songplays_is_inner_join
        (E : Env) (song_df : Spark.DataFrame Song.t)
        (log_df : Spark.DataFrame Event.t) (df : Spark.DataFrame LogRow.t) :
  plays_frame E log_df = Ok df ->
  (forall row, In row (songplays_table E song_df df) ->
     exists e c, In e (Spark.collect log_df) /\ is_NextSong e = true
                 /\ In c (Spark.collect song_df)
                 /\ exact_match e c /\ joined E e c row)
  /\ (forall e c, In e (Spark.collect log_df) -> is_NextSong e = true ->
                  In c (Spark.collect song_df) -> exact_match e c ->
                  exists row, In row (songplays_table E song_df df)
                              /\ joined E e c row).
Proof.
  intros Hdf.
  pose proof (FactFacts.plays_frame_events E log_df df Hdf) as Hev.
  assert (Hjoined : forall sp c,
             In (fst sp) (Spark.collect df) ->
             joined E (LogRow.event (fst sp)) c (songplays_columns sp c)).
  { intros sp c Hsp.
    pose proof (FactFacts.plays_frame_each E log_df df _ Hdf Hsp) as Hcols.
    destruct (FactFacts.time_columns_year_month E _ _ Hcols) as [Hy Hm].
    unfold joined, songplays_columns. cbn.
    split; [now apply TimeFacts.time_columns_start_time|].
    repeat split; assumption. }
  split.
  - intros row Hrow.
    apply FactFacts.fact_row_origin in Hrow as (sp & c & Hsp & Hc & Hon & ->).
    assert (Hr : In (fst sp) (Spark.collect df)).
    { rewrite <- FactFacts.numbered_rows. now apply in_map. }
    assert (He : In (LogRow.event (fst sp))
                    (filter is_NextSong (Spark.collect log_df))).
    { rewrite <- Hev. now apply in_map. }
    apply filter_In in He as [He Hp].
    exists (LogRow.event (fst sp)), c.
    split; [exact He|]. split; [exact Hp|]. split; [exact Hc|]. split.
    + apply FactFacts.triple_matches_exact.
      now rewrite <- FactFacts.songplays_on_triple.
    + now apply Hjoined.
  - intros e c He Hp Hc Hm.
    assert (He' : In e (map LogRow.event (Spark.collect df))).
    { rewrite Hev. apply filter_In. now split. }
    apply in_map_iff in He' as (r & <- & Hr).
    rewrite <- FactFacts.numbered_rows in Hr.
    apply in_map_iff in Hr as (sp & <- & Hsp).
    exists (songplays_columns sp c). split.
    + apply FactFacts.fact_row_origin. exists sp, c.
      split; [exact Hsp|]. split; [exact Hc|]. split; [|reflexivity].
      rewrite FactFacts.songplays_on_triple.
      now apply FactFacts.triple_matches_exact.
    + apply Hjoined. rewrite <- FactFacts.numbered_rows. now apply in_map.
Qed.

(** [songplays_is_inner_join] on a log of two plays and an event of
    another page, with a catalog that lists the recording twice. *)
Lemma songplays_is_inner_join_witness :
  (forall row, In row (songplays_table utc_env catalog_2 plays_2) ->
     exists e c, In e (Spark.collect log_2) /\ is_NextSong e = true
                 /\ In c (Spark.collect catalog_2)
                 /\ exact_match e c /\ joined utc_env e c row)
  /\ (forall e c, In e (Spark.collect log_2) -> is_NextSong e = true ->
                  In c (Spark.collect catalog_2) -> exact_match e c ->
                  exists row, In row (songplays_table utc_env catalog_2 plays_2)
                              /\ joined utc_env e c row).
Proof.
  apply (songplays_is_inner_join utc_env catalog_2 log_2 plays_2).
  reflexivity.
Defined.

(** X11: a fact row falls in the partition of the time row it refers
    to: a fact row and a row of the plays with the same [start_time] have
    the same year and the same month. *)
Theorem fact_year_month_of_time_row
        (E : Env) (song_df : Spark.DataFrame Song.t)
        (log_df : Spark.DataFrame Event.t) (df : Spark.DataFrame LogRow.t) :
  plays_frame E log_df = Ok df ->
  forall row r, In row (songplays_table E song_df df) ->
    In r (Spark.collect df) ->
    SongplaysRow.start_time row = TimeRow.start_time (time_table_columns r) ->
    SongplaysRow.year row = TimeRow.year (time_table_columns r)
    /\ SongplaysRow.month row = TimeRow.month (time_table_columns r).
Proof.
  intros Hdf row r2 Hrow Hr2 Hst.
  apply FactFacts.fact_row_origin in Hrow as (sp & c & Hsp & _ & _ & ->).
  assert (Hr1 : In (fst sp) (Spark.collect df)).
  { rewrite <- FactFacts.numbered_rows. now apply in_map. }
  destruct (TimeTableFacts.time_columns_datetime
              E _ _ (FactFacts.plays_frame_each E log_df df _ Hdf Hr1))
    as (t1 & d1 & _ & Hd1 & Hst1 & _ & _ & _ & Hm1 & Hy1 & _).
  destruct (TimeTableFacts.time_columns_datetime
              E _ _ (FactFacts.plays_frame_each E log_df df _ Hdf Hr2))
    as (t2 & d2 & _ & Hd2 & Hst2 & _ & _ & _ & Hm2 & Hy2 & _).
  cbn [songplays_columns time_table_columns SongplaysRow.start_time
       SongplaysRow.year SongplaysRow.month TimeRow.start_time TimeRow.year
       TimeRow.month] in *.
  rewrite Hst1, Hst2 in Hst.
  pose proof (TimeTableFacts.start_time_second _ _ d1 d2 Hd1 Hd2 Hst) as Heq.
  rewrite Heq in Hd1. rewrite Hd1 in Hd2. injection Hd2 as <-.
  rewrite Hy1, Hy2, Hm1, Hm2. split; reflexivity.
Qed.

(** [fact_year_month_of_time_row] on the fact row of the second of two
    plays. *)
Lemma fact_year_month_of_time_row_witness :
  SongplaysRow.year (songplays_columns (row_11, 1) song_S1)
  = TimeRow.year (time_table_columns row_11)
  /\ SongplaysRow.month (songplays_columns (row_11, 1) song_S1)
     = TimeRow.month (time_table_columns row_11).
Proof.
  apply (fact_year_month_of_time_row utc_env catalog_1 log_2 plays_2).
  - reflexivity.
  - right. now left.
  - right. now left.
  - reflexivity.
Defined.

(** X12: the fact table has as many rows as the events with page
    [NextSong] have matches in the catalog, all together. *)
Theorem songplays_row_count
        (E : Env) (song_df : Spark.DataFrame Song.t)
        (log_df : Spark.DataFrame Event.t) (df : Spark.DataFrame LogRow.t) :
  plays_frame E log_df = Ok df ->
  List.length (songplays_table E song_df df)
  = list_sum (map (match_count song_df)
                  (filter is_NextSong (Spark.collect log_df))).
Proof.
  intros Hdf.
  pose proof (FactFacts.songplay_ids_census E song_df df) as Hperm.
  apply Permutation_length in Hperm.
  rewrite length_map, IdFacts.ids_of_length in Hperm.
  rewrite <- (map_map fst (fun r => match_count song_df (LogRow.event r)))
    in Hperm.
  rewrite FactFacts.numbered_rows in Hperm.
  rewrite <- (map_map LogRow.event (match_count song_df)) in Hperm.
  now rewrite (FactFacts.plays_frame_events E log_df df Hdf) in Hperm.
Qed.

(** [songplays_row_count] on two plays that match two rows each. *)
Lemma songplays_row_count_witness :
  List.length (songplays_table utc_env catalog_2 plays_2)
  = list_sum (map (match_count catalog_2)
                  (filter is_NextSong (Spark.collect log_2))).
Proof.
  apply (songplays_row_count utc_env catalog_2 log_2 plays_2). reflexivity.
Defined.

(** X14: no run of the script writes a table.  Each of the two steps
    raises, at its read when a file cannot be read and at its first query
    otherwise, and leaves what was written before as it was; [main] ends
    in the first step. *)
Theorem run_raises_before_writing
        (E : Env) (inp : Input) (out : string) (s : Sink) :
  (exists err, process_song_data E inp out s = (Raise err, s)
               /\ (err = IOError \/ err = AnalysisException))
  /\ (exists err, process_log_data E inp out s = (Raise err, s)
                  /\ (err = IOError \/ err = AnalysisException))
  /\ (exists err, main E inp out s = (Raise err, s)
                  /\ (err = IOError \/ err = AnalysisException))
  /\ (In Spark.Unreadable (song_data inp) ->
      main E inp out s = (Raise IOError, s))
  /\ (~ In Spark.Unreadable (song_data inp) ->
      main E inp out s = (Raise AnalysisException, s)).
Proof.
  rewrite FactFacts.main_raises, FactFacts.process_song_data_raises,
    FactFacts.process_log_data_raises.
  pose proof (SparkFacts.read_json_error Song.null E (song_data inp)) as Hsong.
  pose proof (SparkFacts.read_json_error Event.null E (log_data inp)) as Hlog.
  pose proof (SparkFacts.read_json_Unreadable Song.null E (song_data inp))
    as Hbad.
  pose proof (SparkFacts.read_json_readable Song.null E (song_data inp))
    as Hgood.
  destruct (Spark.read_json Song.null E (song_data inp)) as [sdf|e1].
  - split; [|split; [|split; [|split]]].
    + exists AnalysisException. split; [reflexivity | now right].
    + destruct (Spark.read_json Event.null E (log_data inp)) as [ldf|e2].
      * exists AnalysisException. split; [reflexivity | now right].
      * exists e2. split; [reflexivity|]. left. now apply Hlog.
    + exists AnalysisException. split; [reflexivity | now right].
    + intros H. specialize (Hbad H). discriminate Hbad.
    + reflexivity.
  - rewrite (Hsong e1 eq_refl). split; [|split; [|split; [|split]]].
    + exists IOError. split; [reflexivity | now left].
    + destruct (Spark.read_json Event.null E (log_data inp)) as [ldf|e2].
      * exists AnalysisException. split; [reflexivity | now right].
      * exists e2. split; [reflexivity|]. left. now apply Hlog.
    + exists IOError. split; [reflexivity | now left].
    + reflexivity.
    + intros H. destruct (Hgood H) as [df Hdf]. discriminate Hdf.
Qed.

(** X6: the calendar columns of an event are arithmetic on the second of
    its local clock: the hour is the hour of the day, the weekday is that
    of the day counted from Thursday 1 January 1970, and year, month and
    day are the date of that day in the proleptic Gregorian calendar. *)
Theorem calendar_columns_of_local_second
        (E : Env) (e : Event.t) (r : LogRow.t) (t : Z) :
  time_columns E e = Ok r -> Event.ts e = Some t ->
  LogRow.hour r = local_second E t mod 86400 / 3600
  /\ LogRow.weekday r = day_name ((local_second E t / 86400 + 3) mod 7)
  /\ PyDatetime._ymd2ord (LogRow.year r) (LogRow.month r) (LogRow.day r)
     = local_second E t / 86400 + PyDatetime.EPOCH_ORDINAL
  /\ 1 <= LogRow.day r
          <= PyDatetime._days_in_month (LogRow.year r) (LogRow.month r).
Proof.
  intros Hr Hts.
  destruct (TimeFacts.time_columns_fields E e r t Hr Hts)
    as (d & Hd & _ & Hhour & Hday & _ & Hmonth & Hyear & Hwd).
  apply RangeFacts.of_seconds_Ok in Hd
    as (Hord & _ & _ & _ & Hdim & _ & Hh & _ & _ & _).
  rewrite Hhour, Hday, Hmonth, Hyear, Hwd.
  split; [exact Hh|]. split; [|split; [exact Hord | exact Hdim]].
  rewrite TimeTableFacts.strftime_A_day_name. f_equal.
  unfold PyDatetime.weekday. rewrite Hord. unfold PyDatetime.EPOCH_ORDINAL.
  replace (local_second E t / 86400 + 719163 + 6)
    with (local_second E t / 86400 + 3 + 102738 * 7) by lia.
  now rewrite Z.mod_add by lia.
Qed.

(** [calendar_columns_of_local_second] on the play of [input_1]. *)
Lemma calendar_columns_of_local_second_witness :
  LogRow.hour row_10 = local_second utc_env 1541121934796 mod 86400 / 3600
  /\ LogRow.weekday row_10
     = day_name ((local_second utc_env 1541121934796 / 86400 + 3) mod 7)
  /\ PyDatetime._ymd2ord (LogRow.year row_10) (LogRow.month row_10)
                         (LogRow.day row_10)
     = local_second utc_env 1541121934796 / 86400 + PyDatetime.EPOCH_ORDINAL
  /\ 1 <= LogRow.day row_10
          <= PyDatetime._days_in_month (LogRow.year row_10)
                                       (LogRow.month row_10).
Proof.
  apply (calendar_columns_of_local_second utc_env event_10 row_10
                                          1541121934796);
    reflexivity.
Defined.

(** X7: two events whose time columns are computed have the same
    [start_time] exactly when their [ts] fall in the same second of the
    local clock; the text of [start_time] loses nothing but the
    milliseconds. *)
Theorem start_time_same_second
        (E : Env) (e1 e2 : Event.t) (r1 r2 : LogRow.t) (t1 t2 : Z) :
  time_columns E e1 = Ok r1 -> Event.ts e1 = Some t1 ->
  time_columns E e2 = Ok r2 -> Event.ts e2 = Some t2 ->
  (LogRow.start_time r1 = LogRow.start_time r2
   <-> local_second E t1 = local_second E t2).
Proof.
  intros Hr1 Hts1 Hr2 Hts2.
  destruct (TimeFacts.time_columns_fields E e1 r1 t1 Hr1 Hts1)
    as (d1 & Hd1 & Hst1 & _).
  destruct (TimeFacts.time_columns_fields E e2 r2 t2 Hr2 Hts2)
    as (d2 & Hd2 & Hst2 & _).
  rewrite Hst1, Hst2. split.
  - apply (TimeTableFacts.start_time_second _ _ d1 d2 Hd1 Hd2).
  - intros Heq. rewrite Heq in Hd1. rewrite Hd1 in Hd2.
    now injection Hd2 as <-.
Qed.

(** [start_time_same_second] on the play of [input_1], twice. *)
Lemma start_time_same_second_witness :
  LogRow.start_time row_10 = LogRow.start_time row_10
  <-> local_second utc_env 1541121934796 = local_second utc_env 1541121934797.
Proof.
  apply (start_time_same_second utc_env event_10
           (play 1541121934797 "10" "free" (421 # 2)) row_10
           (LogRow.mk (play 1541121934797 "10" "free" (421 # 2)) 1541121934
                      "2018-11-02 01:25:34" 1 2 "44" 11 2018 "Friday"));
    reflexivity.
Defined.
